(** * Chat backend: user and message services with their HTTP boundary

    A shallow embedding of the TypeScript sources

    - [services/user.service.ts]      (saveUser, getUserByUsername, loginUser,
                                       deleteUserByUsername, updateUser)
    - [services/message.service.ts]   (saveMessage, getMessages)
    - [controllers/user.controller.ts]
    - [controllers/message.controller.ts]

    Every [async] function becomes a function from a world to a completion
    and a new world.  The world carries the state of the document store and
    a chronological log of the observable effects (store calls settled,
    service entries, socket emissions, HTTP responses written to [res]). *)

From Stdlib Require Import Ascii String ZArith.
From stdpp Require Import gmap strings list sorting.

Local Open Scope string_scope.
Local Open Scope list_scope.
Local Open Scope Z_scope.

(** ** JavaScript values *)

(** A [Date] is its time value, milliseconds since the epoch. *)
Definition Date := Z.
Bind Scope Z_scope with Date.

(** Identifiers assigned by the store. *)
Definition ObjectId := N.
Bind Scope N_scope with ObjectId.

Module Js.

(** A string is held as the bytes of its UTF-8 encoding, the form in which a
    JSON body carries it; [chars] cuts it into its characters (code points).
    The code compares strings for equality and tests [length > 0], never
    more: both read the same on the bytes as on the UTF-16 code units. *)

(** The number of bytes of the character whose first byte is [a]; a byte that
    cannot start a character stands alone. *)
Definition width (a : ascii) : nat :=
  let n := N_of_ascii a in
  if (n <? 0xC0)%N then 1%nat
  else if (n <? 0xE0)%N then 2%nat
  else if (n <? 0xF0)%N then 3%nat
  else if (n <? 0xF8)%N then 4%nat
  else 1%nat.

Fixpoint chars (s : string) : list string :=
  match s with
  | EmptyString => []
  | String a s1 =>
      match width a, s1 with
      | 2%nat, String b s2 => String a (String b "") :: chars s2
      | 3%nat, String b (String c s3) => String a (String b (String c "")) :: chars s3
      | 4%nat, String b (String c (String d s4)) =>
          String a (String b (String c (String d ""))) :: chars s4
      | _, _ => String a "" :: chars s1
      end
  end.

(** The six payload bits of a continuation byte [10xxxxxx]. *)
Definition continuation (a : ascii) : option N :=
  let n := N_of_ascii a in
  if ((0x80 <=? n) && (n <? 0xC0))%N then Some (n - 0x80)%N else None.

(** The code point a character encodes, in its shortest form only. *)
Definition code_point (ch : string) : option N :=
  match ch with
  | String a "" =>
      let n := N_of_ascii a in
      if (n <? 0x80)%N then Some n else None
  | String a (String b "") =>
      match continuation b with
      | Some y =>
          let v := ((N_of_ascii a - 0xC0) * 64 + y)%N in
          if (0x80 <=? v)%N then Some v else None
      | None => None
      end
  | String a (String b (String c "")) =>
      match continuation b, continuation c with
      | Some y, Some z =>
          let v := ((N_of_ascii a - 0xE0) * 4096 + y * 64 + z)%N in
          if (0x800 <=? v)%N then Some v else None
      | _, _ => None
      end
  | String a (String b (String c (String d ""))) =>
      match continuation b, continuation c, continuation d with
      | Some y, Some z, Some u =>
          let v := ((N_of_ascii a - 0xF0) * 262144 + y * 4096 + z * 64 + u)%N in
          if (0x10000 <=? v)%N then Some v else None
      | _, _, _ => None
      end
  | _ => None
  end.

(** The code points of ECMAScript [WhiteSpace] and [LineTerminator], which
    [String.prototype.trim] strips: TAB, LF, VT, FF, CR, SP, NBSP, U+1680,
    U+2000 to U+200A, LS, PS, U+202F, U+205F, U+3000 and the BOM. *)
Definition white_space : list N :=
  [0x9; 0xA; 0xB; 0xC; 0xD; 0x20; 0xA0; 0x1680;
   0x2000; 0x2001; 0x2002; 0x2003; 0x2004; 0x2005; 0x2006; 0x2007; 0x2008;
   0x2009; 0x200A; 0x2028; 0x2029; 0x202F; 0x205F; 0x3000; 0xFEFF]%N.

Definition isWhiteSpace (ch : string) : bool :=
  match code_point ch with
  | Some c => existsb (N.eqb c) white_space
  | None => false
  end.

Fixpoint drop_while {A} (p : A -> bool) (l : list A) : list A :=
  match l with
  | [] => []
  | x :: l' => if p x then drop_while p l' else l
  end.

Definition join (l : list string) : string := foldr String.append "" l.

(** [String.prototype.trim]: the string without the white space at its two
    ends. *)
Definition trim (s : string) : string :=
  join (rev (drop_while isWhiteSpace (rev (drop_while isWhiteSpace (chars s))))).

(** Truthiness of a string: every string but the empty one. *)
Definition truthy (s : string) : bool := negb (bool_decide (s = "")).

(** Truthiness of a property that may be missing ([undefined]). *)
Definition defined_truthy (o : option string) : bool :=
  match o with
  | Some s => truthy s
  | None => false
  end.

Inductive value :=
| VUndefined
| VString (s : string)
| VDate (d : Date)
| VObjectId (i : ObjectId).

#[global] Instance value_eq_dec : EqDecision value.
Proof. solve_decision. Defined.

Definition opt_string (o : option string) : value :=
  match o with
  | Some s => VString s
  | None => VUndefined
  end.

End Js.

(** A plain object: its own properties. *)
Abbreviation obj := (gmap string Js.value).

(** [key in o] *)
Definition has_key (key : string) (o : obj) : bool :=
  bool_decide (is_Some (o !! key)).

(** ** Completions and the asynchronous monad *)

Inductive exn :=
| Error (message : string)
| TypeError (message : string).

Inductive completion (A : Type) :=
| Returned (a : A)
| Thrown (e : exn).
Arguments Returned {A} a.
Arguments Thrown {A} e.

Definition is_thrown {A} (c : completion A) : bool :=
  match c with
  | Returned _ => false
  | Thrown _ => true
  end.

(** ** Data model ([types/types.ts], shapes as the services and controllers
    use them).  A property typed [string] in TypeScript is an [option string]:
    request bodies and test fixtures leave properties out, and the code tests
    them for truthiness. *)

Module User.
Record t := mk {
  _id : option ObjectId;
  username : option string;
  password : option string;
  dateJoined : Date
}.
End User.

Module UserCredentials.
Record t := mk {
  username : option string;
  password : option string
}.
End UserCredentials.

(** [Partial<User>]: [None] is a property left out of the update. *)
Module UserUpdates.
Record t := mk {
  _id : option ObjectId;
  username : option string;
  password : option string;
  dateJoined : option Date
}.
End UserUpdates.

(** The properties [saveUser] hands to [UserModel.create]. *)
Module UserFields.
Record t := mk {
  username : option string;
  password : option string;
  dateJoined : Date
}.
End UserFields.

(** A user document as the store returns it. *)
Module UserDoc.
Record t := mk {
  _id : ObjectId;
  username : option string;
  password : option string;
  dateJoined : Date
}.
End UserDoc.

Module Message.
Record t := mk {
  msg : option string;
  msgFrom : option string;
  msgDateTime : option Date
}.
End Message.

(** The properties [saveMessage] hands to [MessageModel.create]. *)
Module MessageFields.
Record t := mk {
  msg : option string;
  msgFrom : option string;
  msgDateTime : Date
}.
End MessageFields.

(** A message document as the store returns it. *)
Module MessageDoc.
Record t := mk {
  _id : ObjectId;
  msg : option string;
  msgFrom : option string;
  msgDateTime : Date
}.
End MessageDoc.

#[global] Instance User_eq_dec : EqDecision User.t.
Proof. solve_decision. Defined.
#[global] Instance UserCredentials_eq_dec : EqDecision UserCredentials.t.
Proof. solve_decision. Defined.
#[global] Instance UserUpdates_eq_dec : EqDecision UserUpdates.t.
Proof. solve_decision. Defined.
#[global] Instance UserDoc_eq_dec : EqDecision UserDoc.t.
Proof. solve_decision. Defined.
#[global] Instance Message_eq_dec : EqDecision Message.t.
Proof. solve_decision. Defined.
#[global] Instance MessageDoc_eq_dec : EqDecision MessageDoc.t.
Proof. solve_decision. Defined.

(** [{ error: message }] *)
Definition error_obj (message : string) : obj :=
  {[ "error" := Js.VString message ]}.

(** The object literal [{ _id: user._id, username: user.username,
    dateJoined: user.dateJoined }] every user service returns on success. *)
Definition safe_user (user : UserDoc.t) : obj :=
  {[ "_id" := Js.VObjectId (UserDoc._id user);
     "username" := Js.opt_string (UserDoc.username user);
     "dateJoined" := Js.VDate (UserDoc.dateJoined user) ]}.

(** A message document seen as an object: all its properties. *)
Definition message_obj (m : MessageDoc.t) : obj :=
  {[ "_id" := Js.VObjectId (MessageDoc._id m);
     "msg" := Js.opt_string (MessageDoc.msg m);
     "msgFrom" := Js.opt_string (MessageDoc.msgFrom m);
     "msgDateTime" := Js.VDate (MessageDoc.msgDateTime m) ]}.

(** ** Observable effects *)

Inductive store_op :=
| UserFindOne
| UserCreate
| UserFindOneAndDelete
| UserFindOneAndUpdate
| MessageCreate
| MessageFindSort.

Inductive service_call :=
| SaveUser (user : User.t)
| GetUserByUsername (username : option string)
| LoginUser (loginCredentials : UserCredentials.t)
| DeleteUserByUsername (username : option string)
| UpdateUser (username : option string) (updates : UserUpdates.t)
| SaveMessage (message : Message.t)
| GetMessages.

(** What [res.send] / [res.json] is given. *)
Inductive body :=
| Text (s : string)
| Json (o : obj)
| JsonArray (l : list obj).

Inductive event :=
| StoreSettled (op : store_op) (threw : bool)
| ServiceEntered (call : service_call)
| Emitted (name : string) (payload : gmap string obj)
| Responded (status : Z) (b : body).

#[global] Instance store_op_eq_dec : EqDecision store_op.
Proof. solve_decision. Defined.
#[global] Instance service_call_eq_dec : EqDecision service_call.
Proof. solve_decision. Defined.
#[global] Instance body_eq_dec : EqDecision body.
Proof. solve_decision. Defined.
#[global] Instance event_eq_dec : EqDecision event.
Proof. solve_decision. Defined.

Definition is_emit (e : event) : bool :=
  match e with
  | Emitted _ _ => true
  | _ => false
  end.

(** ** Worlds *)

Record world (S : Type) := World {
  db : S;
  log : list event
}.
Arguments World {S} db log.
Arguments db {S} w.
Arguments log {S} w.

Definition Async (S A : Type) : Type := world S -> completion A * world S.

Definition ret {S A} (a : A) : Async S A := fun w => (Returned a, w).

Definition bind {S A B} (m : Async S A) (k : A -> Async S B) : Async S B :=
  fun w =>
    match m w with
    | (Returned a, w') => k a w'
    | (Thrown e, w') => (Thrown e, w')
    end.

Definition throw {S A} (e : exn) : Async S A := fun w => (Thrown e, w).

(** [try { m } catch (error) { handler }] *)
Definition try_catch {S A} (m : Async S A) (handler : exn -> Async S A) : Async S A :=
  fun w =>
    match m w with
    | (Returned a, w') => (Returned a, w')
    | (Thrown e, w') => handler e w'
    end.

Definition record {S} (e : event) : Async S unit :=
  fun w => (Returned tt, World (db w) (log w ++ [e])).

(** [await] of a store call: the store moves on, the call settles. *)
Definition await {S A} (op : store_op) (call : S -> completion A * S) : Async S A :=
  fun w =>
    let '(c, s') := call (db w) in
    (c, World s' (log w ++ [StoreSettled op (is_thrown c)])).

Declare Scope async_scope.
Delimit Scope async_scope with async.
Notation "'let*' x ':=' m 'in' k" := (bind m (fun x => k))
  (at level 10, x name, m at level 100, k at level 200) : async_scope.
Notation "m ';;' k" := (bind m (fun _ => k))
  (at level 100, k at level 200, right associativity) : async_scope.

(** ** The store, as the services see it *)

(** [new Date()] reads the clock of the world. *)
Class Clock (S : Type) := now : S -> Date.

Module UserModel.
(** The filter is always [{ username }]; [findOneAndUpdate] is always called
    with [{ $set: updates }] and [{ new: true }]. *)
Class Ops (S : Type) := {
  findOne : option string -> S -> completion (option UserDoc.t) * S;
  create : UserFields.t -> S -> completion UserDoc.t * S;
  findOneAndDelete : option string -> S -> completion (option UserDoc.t) * S;
  findOneAndUpdate :
    option string -> UserUpdates.t -> S -> completion (option UserDoc.t) * S
}.
End UserModel.

Module MessageModel.
(** [find_sorted] is the query [find().sort({ msgDateTime: 1 })]. *)
Class Ops (S : Type) := {
  create : MessageFields.t -> S -> completion MessageDoc.t * S;
  find_sorted : S -> completion (list MessageDoc.t) * S
}.
End MessageModel.

(** ** services/user.service.ts and services/message.service.ts *)

Section Services.
Context {S : Type} `{!Clock S, !UserModel.Ops S, !MessageModel.Ops S}.

Local Open Scope async_scope.

Definition new_Date : Async S Date := fun w => (Returned (now (db w)), w).

(** Entry into an exported service function (what a spy on it observes). *)
Definition entered (call : service_call) : Async S unit :=
  record (ServiceEntered call).

Definition saveUser (user : User.t) : Async S obj :=
  entered (SaveUser user) ;;
  try_catch
    (let* existingUser := await UserFindOne (UserModel.findOne (User.username user)) in
     if existingUser is Some _ then ret (error_obj "Username already exists")
     else
       let* dateJoined := new_Date in
       let* newUser :=
         await UserCreate
           (UserModel.create
              {| UserFields.username := User.username user;
                 UserFields.password := User.password user;
                 UserFields.dateJoined := dateJoined |}) in
       ret (safe_user newUser))
    (fun _ => ret (error_obj "Failed to save user")).

Definition getUserByUsername (username : option string) : Async S obj :=
  entered (GetUserByUsername username) ;;
  try_catch
    (let* user := await UserFindOne (UserModel.findOne username) in
     match user with
     | None => ret (error_obj "User not found")
     | Some user => ret (safe_user user)
     end)
    (fun _ => ret (error_obj "Failed to get user")).

Definition loginUser (loginCredentials : UserCredentials.t) : Async S obj :=
  entered (LoginUser loginCredentials) ;;
  try_catch
    (let* user :=
       await UserFindOne
         (UserModel.findOne (UserCredentials.username loginCredentials)) in
     match user with
     | None => ret (error_obj "Invalid username or password")
     | Some user =>
         if bool_decide
              (UserDoc.password user ≠ UserCredentials.password loginCredentials)
         then ret (error_obj "Invalid username or password")
         else ret (safe_user user)
     end)
    (fun _ => ret (error_obj "Failed to login")).

Definition deleteUserByUsername (username : option string) : Async S obj :=
  entered (DeleteUserByUsername username) ;;
  try_catch
    (let* user := await UserFindOneAndDelete (UserModel.findOneAndDelete username) in
     match user with
     | None => ret (error_obj "User not found")
     | Some user => ret (safe_user user)
     end)
    (fun _ => ret (error_obj "Failed to delete user")).

Definition updateUser (username : option string) (updates : UserUpdates.t)
  : Async S obj :=
  entered (UpdateUser username updates) ;;
  try_catch
    (let* user :=
       await UserFindOneAndUpdate (UserModel.findOneAndUpdate username updates) in
     match user with
     | None => ret (error_obj "User not found")
     | Some user => ret (safe_user user)
     end)
    (fun _ => ret (error_obj "Failed to update user")).

(** [message.msgDateTime || new Date()]: a [Date] object is always truthy. *)
Definition msgDateTime_or_now (message : Message.t) : Async S Date :=
  match Message.msgDateTime message with
  | Some d => ret d
  | None => new_Date
  end.

Definition saveMessage (message : Message.t) : Async S obj :=
  entered (SaveMessage message) ;;
  try_catch
    (let* msgDateTime := msgDateTime_or_now message in
     let* newMessage :=
       await MessageCreate
         (MessageModel.create
            {| MessageFields.msg := Message.msg message;
               MessageFields.msgFrom := Message.msgFrom message;
               MessageFields.msgDateTime := msgDateTime |}) in
     ret (message_obj newMessage))
    (fun _ => ret (error_obj "Failed to save message")).

Definition getMessages : Async S (list MessageDoc.t) :=
  entered GetMessages ;;
  try_catch
    (let* messages := await MessageFindSort MessageModel.find_sorted in
     ret messages)
    (fun _ => ret []).

End Services.

(** ** controllers/user.controller.ts and controllers/message.controller.ts *)

Module UserRequest.
(** [req.body]: [{ username, password }], or nothing at all. *)
Record t := mk { body : option UserCredentials.t }.
End UserRequest.

Module UserByUsernameRequest.
(** [req.params.username] *)
Record t := mk { username : option string }.
End UserByUsernameRequest.

Module AddMessageBody.
Record t := mk { messageToAdd : option Message.t }.
End AddMessageBody.

Module AddMessageRequest.
Record t := mk { body : option AddMessageBody.t }.
End AddMessageRequest.

Section Controllers.
Context {S : Type} `{!Clock S, !UserModel.Ops S, !MessageModel.Ops S}.

Local Open Scope async_scope.

(** [res.status(status).send(text)] and [res.status(status).json(o)] *)
Definition respond (status : Z) (b : body) : Async S unit :=
  record (Responded status b).

(** [socket.emit(name, payload)] *)
Definition emit (name : string) (payload : gmap string obj) : Async S unit :=
  record (Emitted name payload).

(** [const { username, password } = req.body], a [TypeError] when the
    request has no body. *)
Definition user_body (req : UserRequest.t) : Async S UserCredentials.t :=
  match UserRequest.body req with
  | Some b => ret b
  | None => throw (TypeError "Cannot destructure property of req.body")
  end.

Definition isUserBodyValid (req : UserRequest.t) : Async S bool :=
  let* b := user_body req in
  ret match UserCredentials.username b, UserCredentials.password b with
      | Some username, Some password =>
          Js.truthy username && Js.truthy password
          && (0 <? String.length (Js.trim username))%nat
          && (0 <? String.length password)%nat
      | _, _ => false
      end.

Definition createUser (req : UserRequest.t) : Async S unit :=
  try_catch
    (let* valid := isUserBodyValid req in
     if negb valid then respond 400 (Text "Invalid user body")
     else
       let* b := user_body req in
       let* dateJoined := new_Date in
       let user :=
         {| User._id := None;
            User.username := UserCredentials.username b;
            User.password := UserCredentials.password b;
            User.dateJoined := dateJoined |} in
       let* result := saveUser user in
       if has_key "error" result then
         if bool_decide (result !! "error" = Some (Js.VString "Username already exists"))
         then respond 400 (Json result)
         else respond 500 (Json result)
       else respond 200 (Json result))
    (fun _ => respond 500 (Json (error_obj "Internal server error"))).

Definition userLogin (req : UserRequest.t) : Async S unit :=
  try_catch
    (let* valid := isUserBodyValid req in
     if negb valid then respond 400 (Text "Invalid user body")
     else
       let* credentials := user_body req in
       let* result := loginUser credentials in
       if has_key "error" result then
         if bool_decide
              (result !! "error" = Some (Js.VString "Invalid username or password"))
         then respond 401 (Json result)
         else respond 500 (Json result)
       else respond 200 (Json result))
    (fun _ => respond 500 (Json (error_obj "Internal server error"))).

Definition getUser (req : UserByUsernameRequest.t) : Async S unit :=
  try_catch
    (let username := UserByUsernameRequest.username req in
     if negb (Js.defined_truthy username)
     then respond 400 (Json (error_obj "Username is required"))
     else
       let* result := getUserByUsername username in
       if has_key "error" result then
         if bool_decide (result !! "error" = Some (Js.VString "User not found"))
         then respond 404 (Json result)
         else respond 500 (Json result)
       else respond 200 (Json result))
    (fun _ => respond 500 (Json (error_obj "Internal server error"))).

Definition deleteUser (req : UserByUsernameRequest.t) : Async S unit :=
  try_catch
    (let username := UserByUsernameRequest.username req in
     if negb (Js.defined_truthy username)
     then respond 400 (Json (error_obj "Username is required"))
     else
       let* result := deleteUserByUsername username in
       if has_key "error" result then
         if bool_decide (result !! "error" = Some (Js.VString "User not found"))
         then respond 404 (Json result)
         else respond 500 (Json result)
       else respond 200 (Json result))
    (fun _ => respond 500 (Json (error_obj "Internal server error"))).

Definition resetPassword (req : UserRequest.t) : Async S unit :=
  try_catch
    (let* b := user_body req in
     let username := UserCredentials.username b in
     let password := UserCredentials.password b in
     if negb (Js.defined_truthy username) || negb (Js.defined_truthy password)
     then respond 400 (Text "Invalid user body")
     else
       let* result :=
         updateUser username
           {| UserUpdates._id := None;
              UserUpdates.username := None;
              UserUpdates.password := password;
              UserUpdates.dateJoined := None |} in
       if has_key "error" result then
         if bool_decide (result !! "error" = Some (Js.VString "User not found"))
         then respond 404 (Json result)
         else respond 500 (Json result)
       else respond 200 (Json result))
    (fun _ => respond 500 (Json (error_obj "Internal server error"))).

(** [!!(req.body && req.body.messageToAdd)] *)
Definition isRequestValid (req : AddMessageRequest.t) : bool :=
  match AddMessageRequest.body req with
  | Some b => bool_decide (is_Some (AddMessageBody.messageToAdd b))
  | None => false
  end.

Definition isMessageValid (message : option Message.t) : bool :=
  match message with
  | Some message =>
      match Message.msg message, Message.msgFrom message with
      | Some msg, Some msgFrom =>
          Js.truthy msg && (0 <? String.length (Js.trim msg))%nat
          && Js.truthy msgFrom && (0 <? String.length (Js.trim msgFrom))%nat
      | _, _ => false
      end
  | None => false
  end.

(** [const { messageToAdd } = req.body] *)
Definition message_body (req : AddMessageRequest.t) : Async S (option Message.t) :=
  match AddMessageRequest.body req with
  | Some b => ret (AddMessageBody.messageToAdd b)
  | None => throw (TypeError "Cannot destructure property of req.body")
  end.

Definition addMessageRoute (req : AddMessageRequest.t) : Async S unit :=
  try_catch
    (if negb (isRequestValid req) then respond 400 (Text "Invalid request")
     else
       let* messageToAdd := message_body req in
       if negb (isMessageValid messageToAdd) then respond 400 (Text "Invalid message")
       else
         match messageToAdd with
         | Some message =>
             let* result := saveMessage message in
             if has_key "error" result then respond 500 (Json result)
             else
               emit "messageUpdate" {[ "msg" := result ]} ;;
               respond 200 (Json result)
         | None =>
             (* not reached: [isMessageValid] rejects a missing message *)
             throw (TypeError "Cannot read properties of undefined")
         end)
    (fun _ => respond 500 (Json (error_obj "Failed to add message"))).

Definition getMessagesRoute : Async S unit :=
  try_catch
    (let* messages := getMessages in
     respond 200 (JsonArray (message_obj <$> messages)))
    (fun _ => respond 500 (Json (error_obj "Failed to retrieve messages"))).

End Controllers.

(** ** The document store *)

Module MemStore.

(** Modelled from the spec: the document store behind [UserModel] and
    [MessageModel] (models/users.model.ts, models/messages.model.ts and the
    database are not part of the sources), a generic CRUD collection with
    find/create/update/delete-by-filter operations that assigns an
    identifier on creation.  [faults] schedules the store errors: each store
    call consumes one entry, and fails when it is [true]. *)
Record t := mk {
  users : list UserDoc.t;
  messages : list MessageDoc.t;
  nextId : ObjectId;
  clock : Date;
  faults : list bool
}.

Definition with_users (us : list UserDoc.t) (s : t) : t :=
  mk us (messages s) (nextId s) (clock s) (faults s).
Definition with_messages (ms : list MessageDoc.t) (s : t) : t :=
  mk (users s) ms (nextId s) (clock s) (faults s).
Definition with_nextId (i : ObjectId) (s : t) : t :=
  mk (users s) (messages s) i (clock s) (faults s).
Definition with_faults (fs : list bool) (s : t) : t :=
  mk (users s) (messages s) (nextId s) (clock s) fs.

(** Whether the next store call fails. *)
Definition next_fault (s : t) : bool :=
  match faults s with
  | b :: _ => b
  | [] => false
  end.

(** The store once a call has consumed its entry of the schedule. *)
Definition advance (s : t) : t := with_faults (tail (faults s)) s.

(** Modelled from the spec: a store call either fails with a store error,
    leaving the collections as they are, or runs. *)
Definition call {A} (run : t -> completion A * t) (s : t) : completion A * t :=
  if next_fault s
  then (Thrown (Error "Database error"), advance s)
  else run (advance s).

(** Modelled from the spec: the filter [{ username }] selects the documents
    with that very username (case-sensitive equality). *)
Definition matches (username : option string) (d : UserDoc.t) : bool :=
  bool_decide (UserDoc.username d = username).

Fixpoint remove_first {A} (p : A -> bool) (l : list A) : list A :=
  match l with
  | [] => []
  | x :: l' => if p x then l' else x :: remove_first p l'
  end.

Fixpoint replace_first {A} (p : A -> bool) (y : A) (l : list A) : list A :=
  match l with
  | [] => []
  | x :: l' => if p x then y :: l' else x :: replace_first p y l'
  end.

(** Modelled from the spec: [{ $set: updates }] applied to a document, an
    arbitrary subset of field changes; a field left out stays as it is. *)
Definition set_fields (updates : UserUpdates.t) (d : UserDoc.t) : UserDoc.t :=
  {| UserDoc._id := UserDoc._id d;
     UserDoc.username :=
       match UserUpdates.username updates with
       | Some u => Some u
       | None => UserDoc.username d
       end;
     UserDoc.password :=
       match UserUpdates.password updates with
       | Some p => Some p
       | None => UserDoc.password d
       end;
     UserDoc.dateJoined :=
       match UserUpdates.dateJoined updates with
       | Some j => j
       | None => UserDoc.dateJoined d
       end |}.

(** Modelled from the spec: the identifier of a document is immutable; an
    update that would change it is a store error. *)
Definition changes_id (updates : UserUpdates.t) (d : UserDoc.t) : bool :=
  match UserUpdates._id updates with
  | Some i => negb (bool_decide (i = UserDoc._id d))
  | None => false
  end.

(** Modelled from the spec: the first stored user the filter selects. *)
Definition first_match (username : option string) (s : t) : option UserDoc.t :=
  List.find (matches username) (users s).

(** Modelled from the spec: find-by-filter, the first match or nothing. *)
Definition user_findOne (username : option string)
  : t -> completion (option UserDoc.t) * t :=
  call (fun s => (Returned (first_match username s), s)).

(** Modelled from the spec: create, with a fresh identifier. *)
Definition user_create (f : UserFields.t) : t -> completion UserDoc.t * t :=
  call (fun s =>
    let d := {| UserDoc._id := nextId s;
                UserDoc.username := UserFields.username f;
                UserDoc.password := UserFields.password f;
                UserDoc.dateJoined := UserFields.dateJoined f |} in
    (Returned d, with_nextId (N.succ (nextId s)) (with_users (users s ++ [d]) s))).

(** Modelled from the spec: delete-by-filter, returning the removed document. *)
Definition user_findOneAndDelete (username : option string)
  : t -> completion (option UserDoc.t) * t :=
  call (fun s =>
    match first_match username s with
    | Some d => (Returned (Some d),
                 with_users (remove_first (matches username) (users s)) s)
    | None => (Returned None, s)
    end).

(** Modelled from the spec: update-by-filter, returning the updated document. *)
Definition user_findOneAndUpdate (username : option string) (updates : UserUpdates.t)
  : t -> completion (option UserDoc.t) * t :=
  call (fun s =>
    match first_match username s with
    | Some d =>
        if changes_id updates d
        then (Thrown (Error "Performing an update on the path '_id'"), s)
        else
          let d' := set_fields updates d in
          (Returned (Some d'),
           with_users (replace_first (matches username) d' (users s)) s)
    | None => (Returned None, s)
    end).

(** Modelled from the spec: create, with a fresh identifier; the message is
    stored as given. *)
Definition message_create (f : MessageFields.t) : t -> completion MessageDoc.t * t :=
  call (fun s =>
    let d := {| MessageDoc._id := nextId s;
                MessageDoc.msg := MessageFields.msg f;
                MessageDoc.msgFrom := MessageFields.msgFrom f;
                MessageDoc.msgDateTime := MessageFields.msgDateTime f |} in
    (Returned d, with_nextId (N.succ (nextId s)) (with_messages (messages s ++ [d]) s))).

(** Modelled from the spec: the sort key [{ msgDateTime: 1 }], ascending by
    [msgDateTime]. *)
Definition by_msgDateTime (a b : MessageDoc.t) : Prop :=
  (MessageDoc.msgDateTime a ≤ MessageDoc.msgDateTime b)%Z.

#[global] Instance by_msgDateTime_dec : RelDecision by_msgDateTime.
Proof. intros a b. unfold by_msgDateTime. apply _. Defined.

(** Modelled from the spec: find all, sorted by the sort key. *)
Definition message_find_sorted : t -> completion (list MessageDoc.t) * t :=
  call (fun s => (Returned (merge_sort by_msgDateTime (messages s)), s)).

#[global] Instance clock_inst : Clock t := clock.

#[global] Instance user_ops : UserModel.Ops t := {|
  UserModel.findOne := user_findOne;
  UserModel.create := user_create;
  UserModel.findOneAndDelete := user_findOneAndDelete;
  UserModel.findOneAndUpdate := user_findOneAndUpdate
|}.

#[global] Instance message_ops : MessageModel.Ops t := {|
  MessageModel.create := message_create;
  MessageModel.find_sorted := message_find_sorted
|}.

(** The next [n] store calls do not fail. *)
Definition calm (n : nat) (s : t) : Prop :=
  Forall (fun b => b = false) (take n (faults s)).

(** The next store call fails. *)
Definition failing (s : t) : Prop := next_fault s = true.

(** Some stored user has this username. *)
Definition username_taken (username : option string) (s : t) : Prop :=
  exists d, d ∈ users s /\ UserDoc.username d = username.

End MemStore.

(** ** Shapes of service results *)

Definition tagged_error (r : obj) : Prop :=
  exists message, r = error_obj message.

Definition safe_projection (r : obj) : Prop :=
  exists d, r = safe_user d.

Definition stored_message (r : obj) : Prop :=
  exists d, r = message_obj d.

(** The service returned (it did not throw) a tagged error or a value of the
    given shape. *)
Definition returns_outcome {S} (shape : obj -> Prop) (c : completion obj * world S) : Prop :=
  exists r, c.1 = Returned r /\ (tagged_error r \/ shape r).

(** The service returned an object without a [password] property which, when
    it is not an error, has exactly the properties of the safe projection. *)
Definition omits_password {S} (c : completion obj * world S) : Prop :=
  exists r, c.1 = Returned r
    /\ r !! "password" = None
    /\ (has_key "error" r = false ->
        dom r = ({[ "_id"; "username"; "dateJoined" ]} : gset string)).

(** The events a handler or service added to the log. *)
Definition events_since {S} (w w' : world S) : list event :=
  drop (length (log w)) (log w').

(** What never changes in a stored user: its identifier with its
    [dateJoined]. *)
Definition joined (d : UserDoc.t) : ObjectId * Date :=
  (UserDoc._id d, UserDoc.dateJoined d).

(** ** Fixtures, after the test suites *)

(** [new Date('2024-06-04')], [new Date('2024-06-05')], [new Date('2024-12-03')]
    and, for the clock, 2024-12-04. *)
Definition date_2024_06_04 : Date := 1717459200000.
Definition date_2024_06_05 : Date := 1717545600000.
Definition date_2024_12_03 : Date := 1733184000000.
Definition date_2024_12_04 : Date := 1733270400000.

Definition user1 : User.t :=
  {| User._id := None;
     User.username := Some "user1";
     User.password := Some "password";
     User.dateJoined := date_2024_12_03 |}.

Definition stored_user1 : UserDoc.t :=
  UserDoc.mk 0 (Some "user1") (Some "password") date_2024_12_03.

Definition message1 : MessageDoc.t :=
  MessageDoc.mk 0 (Some "Hello") (Some "User1") date_2024_06_04.

Definition message2 : MessageDoc.t :=
  MessageDoc.mk 1 (Some "Hi") (Some "User2") date_2024_06_05.

(** An empty store. *)
Definition empty_world : world MemStore.t :=
  World (MemStore.mk [] [] 0 date_2024_12_04 []) [].

(** A store holding the user "user1", who joined on 2024-12-03. *)
Definition joined_world : world MemStore.t :=
  World (MemStore.mk [stored_user1] [] 1 date_2024_12_04 []) [].

(** The same store, about to fail its next call. *)
Definition failing_world : world MemStore.t :=
  World (MemStore.mk [stored_user1] [] 1 date_2024_12_04 [true]) [].

(** A store where the later message was inserted first. *)
Definition reversed_world : world MemStore.t :=
  World (MemStore.mk [] [message2; message1] 2 date_2024_12_04 []) [].

(** The message [{ msg: "Hello", msgFrom: "User1" }] and the request that
    carries it as [messageToAdd]. *)
Definition hello : Message.t :=
  {| Message.msg := Some "Hello";
     Message.msgFrom := Some "User1";
     Message.msgDateTime := None |}.

Definition hello_request : AddMessageRequest.t :=
  AddMessageRequest.mk (Some (AddMessageBody.mk (Some hello))).

(** The request body [{ username: "   ", password: "secret" }]. *)
Definition blank_username_request : UserRequest.t :=
  UserRequest.mk (Some (UserCredentials.mk (Some "   ") (Some "secret"))).

(** The body [{ username: "user1", password: "" }]. *)
Definition empty_password_body : UserCredentials.t :=
  UserCredentials.mk (Some "user1") (Some "").

(** The partial fields [{ password }], as [resetPassword] builds them. *)
Definition password_only (password : option string) : UserUpdates.t :=
  {| UserUpdates._id := None;
     UserUpdates.username := None;
     UserUpdates.password := password;
     UserUpdates.dateJoined := None |}.

(** The partial fields [{ dateJoined: new Date(0) }]. *)
Definition backdate : UserUpdates.t :=
  {| UserUpdates._id := None;
     UserUpdates.username := None;
     UserUpdates.password := None;
     UserUpdates.dateJoined := Some 0 |}.

(** ** Vocabulary of the further properties *)

(** A character whose code point is in the table of white space. *)
Definition white_space_char (ch : string) : bool :=
  match Js.code_point ch with
  | Some c => bool_decide (c ∈ Js.white_space)
  | None => false
  end.

(** A string with nothing but white space in it (the empty string included). *)
Definition blank (s : string) : bool := forallb white_space_char (Js.chars s).

(** The strings of one character that is white space without being ASCII:
    U+2003 (em space), U+3000 (ideographic space) and U+FEFF (the BOM). *)
Definition em_space : string := String "226" (String "128" (String "131" "")).
Definition ideographic_space : string := String "227" (String "128" (String "128" "")).
Definition byte_order_mark : string := String "239" (String "187" (String "191" "")).

Definition is_response (e : event) : bool :=
  match e with
  | Responded _ _ => true
  | _ => false
  end.

(** The handler returned, it wrote exactly one response to [res], and the
    response is the last thing it did. *)
Definition answers_once {S} (w : world S) (c : completion unit * world S) : Prop :=
  c.1 = Returned tt
  /\ length (List.filter is_response (events_since w c.2)) = 1%nat
  /\ exists status b, last (events_since w c.2) = Some (Responded status b).

(** An event that shows no [password] property: a JSON response or a socket
    payload is checked, everything else passes. *)
Definition hides_password (e : event) : Prop :=
  match e with
  | Responded _ (Json o) => o !! "password" = None
  | Responded _ (JsonArray l) => Forall (fun o : obj => o !! "password" = None) l
  | Emitted _ payload =>
      map_Forall (fun _ (o : obj) => o !! "password" = None) payload
  | _ => True
  end.

(** No two stored users share a username. *)
Definition unique_usernames (s : MemStore.t) : Prop :=
  NoDup (UserDoc.username <$> MemStore.users s).

(** How [getUser], [deleteUser] and [resetPassword] answer what the store call
    of their service came to; [failure] is the message of the service. *)
Definition found_reply (failure : string) (c : completion (option UserDoc.t)) : event :=
  match c with
  | Returned (Some d) =>
      Responded 200
        (Json {[ "_id" := Js.VObjectId (UserDoc._id d);
                 "username" := Js.opt_string (UserDoc.username d);
                 "dateJoined" := Js.VDate (UserDoc.dateJoined d) ]})
  | Returned None => Responded 404 (Json (error_obj "User not found"))
  | Thrown _ => Responded 500 (Json (error_obj failure))
  end.

(** A request parameter or body property that is missing or empty. *)
Definition absent (o : option string) : Prop := o = None \/ o = Some "".

(** The partial fields [{ username }]. *)
Definition rename_to (username : string) : UserUpdates.t :=
  {| UserUpdates._id := None;
     UserUpdates.username := Some username;
     UserUpdates.password := None;
     UserUpdates.dateJoined := None |}.

Definition stored_user2 : UserDoc.t :=
  UserDoc.mk 1 (Some "user2") (Some "hunter2") date_2024_12_03.

(** A store holding "user1" and "user2". *)
Definition two_users_world : world MemStore.t :=
  World (MemStore.mk [stored_user1; stored_user2] [] 2 date_2024_12_04 []) [].

(** * Proofs *)

Ltac exec :=
  unfold saveUser, getUserByUsername, loginUser, deleteUserByUsername, updateUser,
    saveMessage, getMessages, msgDateTime_or_now, entered, respond, emit, record,
    new_Date, await, try_catch, bind, ret, throw; simpl.

Ltac settle :=
  match goal with
  | |- context [let '(c, s) := ?call ?st in _] =>
      let E := fresh "Hcall" in
      destruct (call st) as [[?|?] ?] eqn:E; simpl
  end.

Section AnyStore.
Context {S : Type} `{!Clock S, !UserModel.Ops S, !MessageModel.Ops S}.

Lemma error_obj_lookup message :
  error_obj message !! "error" = Some (Js.VString message).
Proof. unfold error_obj. by rewrite lookup_singleton_eq. Qed.

Lemma error_obj_no_password message : error_obj message !! "password" = None.
Proof. unfold error_obj. by rewrite lookup_singleton_ne. Qed.

Lemma error_obj_has_error message : has_key "error" (error_obj message) = true.
Proof. unfold has_key. rewrite error_obj_lookup. by apply bool_decide_eq_true. Qed.

Lemma safe_user_no_password d : safe_user d !! "password" = None.
Proof. unfold safe_user. by simplify_map_eq. Qed.

Lemma safe_user_dom d :
  dom (safe_user d) = ({[ "_id"; "username"; "dateJoined" ]} : gset string).
Proof. unfold safe_user. rewrite !dom_insert_L, dom_singleton_L. set_solver. Qed.

Lemma message_obj_no_error d : message_obj d !! "error" = None.
Proof. unfold message_obj. by simplify_map_eq. Qed.

Lemma message_obj_has_error d : has_key "error" (message_obj d) = false.
Proof. unfold has_key. rewrite message_obj_no_error. apply bool_decide_eq_false. by intros [? ?]. Qed.

Lemma omits_password_error (w : world S) message :
  omits_password (Returned (error_obj message), w).
Proof.
  exists (error_obj message). split; [done|]. split; [apply error_obj_no_password|].
  rewrite error_obj_has_error. done.
Qed.

Lemma omits_password_safe (w : world S) d :
  omits_password (Returned (safe_user d), w).
Proof.
  exists (safe_user d). split; [done|]. split; [apply safe_user_no_password|].
  intros _. apply safe_user_dom.
Qed.


Lemma returns_error (shape : obj -> Prop) (w : world S) message :
  returns_outcome shape (Returned (error_obj message), w).
Proof. exists (error_obj message). split; [done|]. left. by exists message. Qed.

Lemma returns_safe (w : world S) d :
  returns_outcome safe_projection (Returned (safe_user d), w).
Proof. exists (safe_user d). split; [done|]. right. by exists d. Qed.

Lemma returns_stored (w : world S) d :
  returns_outcome stored_message (Returned (message_obj d), w).
Proof. exists (message_obj d). split; [done|]. right. by exists d. Qed.

(** C6: whatever the store does, a thrown exception included, each of the
    seven service functions returns: a safe projection or stored message on
    success, a tagged error otherwise, and a list for [getMessages]; none of
    them completes by throwing. *)
Theorem services_never_throw (w : world S) :
  (forall user, returns_outcome safe_projection (saveUser user w))
  /\ (forall username, returns_outcome safe_projection (getUserByUsername username w))
  /\ (forall credentials, returns_outcome safe_projection (loginUser credentials w))
  /\ (forall username, returns_outcome safe_projection (deleteUserByUsername username w))
  /\ (forall username updates,
        returns_outcome safe_projection (updateUser username updates w))
  /\ (forall message, returns_outcome stored_message (saveMessage message w))
  /\ (exists messages, (getMessages w).1 = Returned messages).
Proof.
  repeat split; intros; exec.
  - settle; [|apply returns_error].
    destruct a; simpl; [apply returns_error|].
    settle; [apply returns_safe | apply returns_error].
  - settle; [|apply returns_error].
    destruct a; simpl; [apply returns_safe | apply returns_error].
  - settle; [|apply returns_error].
    destruct a; simpl; [|apply returns_error].
    case_bool_decide; simpl; [apply returns_error | apply returns_safe].
  - settle; [|apply returns_error].
    destruct a; simpl; [apply returns_safe | apply returns_error].
  - settle; [|apply returns_error].
    destruct a; simpl; [apply returns_safe | apply returns_error].
  - destruct (Message.msgDateTime message); simpl;
      (settle; [apply returns_stored | apply returns_error]).
  - settle; eauto.
Qed.

(** C7: on every path of the five user services the returned object has no
    [password] property; a result that is not an error has exactly the
    properties [_id], [username] and [dateJoined]. *)
Theorem user_results_omit_password (w : world S) :
  (forall user, omits_password (saveUser user w))
  /\ (forall username, omits_password (getUserByUsername username w))
  /\ (forall credentials, omits_password (loginUser credentials w))
  /\ (forall username, omits_password (deleteUserByUsername username w))
  /\ (forall username updates, omits_password (updateUser username updates w)).
Proof.
  repeat split; intros; exec.
  - settle; [|apply omits_password_error].
    destruct a; simpl; [apply omits_password_error|].
    settle; [apply omits_password_safe | apply omits_password_error].
  - settle; [|apply omits_password_error].
    destruct a; simpl; [apply omits_password_safe | apply omits_password_error].
  - settle; [|apply omits_password_error].
    destruct a; simpl; [|apply omits_password_error].
    case_bool_decide; simpl; [apply omits_password_error | apply omits_password_safe].
  - settle; [|apply omits_password_error].
    destruct a; simpl; [apply omits_password_safe | apply omits_password_error].
  - settle; [|apply omits_password_error].
    destruct a; simpl; [apply omits_password_safe | apply omits_password_error].
Qed.



(** *** Run equations: what one call of a service does to the world *)

Lemma saveUser_run user (w : world S) :
  saveUser user w =
  match UserModel.findOne (User.username user) (db w) with
  | (Returned (Some _), s1) =>
      (Returned (error_obj "Username already exists"),
       World s1 (log w ++ [ServiceEntered (SaveUser user);
                           StoreSettled UserFindOne false]))
  | (Returned None, s1) =>
      let fields := {| UserFields.username := User.username user;
                       UserFields.password := User.password user;
                       UserFields.dateJoined := now s1 |} in
      match UserModel.create fields s1 with
      | (Returned newUser, s2) =>
          (Returned (safe_user newUser),
           World s2 (log w ++ [ServiceEntered (SaveUser user);
                               StoreSettled UserFindOne false;
                               StoreSettled UserCreate false]))
      | (Thrown _, s2) =>
          (Returned (error_obj "Failed to save user"),
           World s2 (log w ++ [ServiceEntered (SaveUser user);
                               StoreSettled UserFindOne false;
                               StoreSettled UserCreate true]))
      end
  | (Thrown _, s1) =>
      (Returned (error_obj "Failed to save user"),
       World s1 (log w ++ [ServiceEntered (SaveUser user);
                           StoreSettled UserFindOne true]))
  end.
Proof.
  exec. settle; [|by rewrite <- app_assoc].
  destruct a; simpl; [by rewrite <- app_assoc|].
  settle; by rewrite <- !app_assoc.
Qed.

Lemma getUserByUsername_run username (w : world S) :
  getUserByUsername username w =
  let '(c, s1) := UserModel.findOne username (db w) in
  (Returned match c with
            | Returned (Some user) => safe_user user
            | Returned None => error_obj "User not found"
            | Thrown _ => error_obj "Failed to get user"
            end,
   World s1 (log w ++ [ServiceEntered (GetUserByUsername username);
                       StoreSettled UserFindOne (is_thrown c)])).
Proof.
  exec. destruct (UserModel.findOne _ _) as [[[?|]|?] ?]; simpl;
    by rewrite <- app_assoc.
Qed.

Lemma loginUser_run credentials (w : world S) :
  loginUser credentials w =
  let '(c, s1) := UserModel.findOne (UserCredentials.username credentials) (db w) in
  (Returned match c with
            | Returned (Some user) =>
                if bool_decide
                     (UserDoc.password user ≠ UserCredentials.password credentials)
                then error_obj "Invalid username or password"
                else safe_user user
            | Returned None => error_obj "Invalid username or password"
            | Thrown _ => error_obj "Failed to login"
            end,
   World s1 (log w ++ [ServiceEntered (LoginUser credentials);
                       StoreSettled UserFindOne (is_thrown c)])).
Proof.
  exec. destruct (UserModel.findOne _ _) as [[[?|]|?] ?]; simpl;
    try case_bool_decide; simpl; by rewrite <- app_assoc.
Qed.

Lemma deleteUserByUsername_run username (w : world S) :
  deleteUserByUsername username w =
  let '(c, s1) := UserModel.findOneAndDelete username (db w) in
  (Returned match c with
            | Returned (Some user) => safe_user user
            | Returned None => error_obj "User not found"
            | Thrown _ => error_obj "Failed to delete user"
            end,
   World s1 (log w ++ [ServiceEntered (DeleteUserByUsername username);
                       StoreSettled UserFindOneAndDelete (is_thrown c)])).
Proof.
  exec. destruct (UserModel.findOneAndDelete _ _) as [[[?|]|?] ?]; simpl;
    by rewrite <- app_assoc.
Qed.

Lemma updateUser_run username updates (w : world S) :
  updateUser username updates w =
  let '(c, s1) := UserModel.findOneAndUpdate username updates (db w) in
  (Returned match c with
            | Returned (Some user) => safe_user user
            | Returned None => error_obj "User not found"
            | Thrown _ => error_obj "Failed to update user"
            end,
   World s1 (log w ++ [ServiceEntered (UpdateUser username updates);
                       StoreSettled UserFindOneAndUpdate (is_thrown c)])).
Proof.
  exec. destruct (UserModel.findOneAndUpdate _ _ _) as [[[?|]|?] ?]; simpl;
    by rewrite <- app_assoc.
Qed.

(** The properties [saveMessage] asks the store to create. *)
Lemma saveMessage_run message (w : world S) :
  saveMessage message w =
  let fields :=
    {| MessageFields.msg := Message.msg message;
       MessageFields.msgFrom := Message.msgFrom message;
       MessageFields.msgDateTime :=
         default (now (db w)) (Message.msgDateTime message) |} in
  let '(c, s1) := MessageModel.create fields (db w) in
  (Returned match c with
            | Returned newMessage => message_obj newMessage
            | Thrown _ => error_obj "Failed to save message"
            end,
   World s1 (log w ++ [ServiceEntered (SaveMessage message);
                       StoreSettled MessageCreate (is_thrown c)])).
Proof.
  exec. destruct (Message.msgDateTime message); simpl;
    destruct (MessageModel.create _ _) as [[?|?] ?]; simpl;
    by rewrite <- app_assoc.
Qed.

Lemma getMessages_run (w : world S) :
  getMessages w =
  let '(c, s1) := MessageModel.find_sorted (db w) in
  (Returned match c with
            | Returned messages => messages
            | Thrown _ => []
            end,
   World s1 (log w ++ [ServiceEntered GetMessages;
                       StoreSettled MessageFindSort (is_thrown c)])).
Proof.
  exec. destruct (MessageModel.find_sorted _) as [[?|?] ?]; simpl;
    by rewrite <- app_assoc.
Qed.

Lemma defined_truthy_empty (o : option string) :
  o = None \/ o = Some "" -> Js.defined_truthy o = false.
Proof. by intros [-> | ->]. Qed.

(** C8: a reset-password request whose body has a missing or empty
    [password] is answered 400 with the plain text "Invalid user body";
    nothing else happens: no service is entered, the store is not touched. *)
Theorem resetPassword_rejects_empty_password
    (req : UserRequest.t) (b : UserCredentials.t) (w : world S) :
  UserRequest.body req = Some b ->
  UserCredentials.password b = None \/ UserCredentials.password b = Some "" ->
  resetPassword req w
  = (Returned tt,
     World (db w) (log w ++ [Responded 400 (Text "Invalid user body")])).
Proof.
  intros Hbody Hpw. apply defined_truthy_empty in Hpw.
  unfold resetPassword, user_body. rewrite Hbody. exec.
  rewrite Hpw. rewrite orb_true_r. done.
Qed.

(** C10: for the body with the username of three spaces and a non-empty
    password, signup and login answer 400 "Invalid user body" and enter no
    service, while reset-password passes its validation and enters
    [updateUser] with that username. *)
Theorem resetPassword_does_not_trim (w : world S) :
  Js.trim "   " = ""
  /\ createUser blank_username_request w
     = (Returned tt,
        World (db w) (log w ++ [Responded 400 (Text "Invalid user body")]))
  /\ userLogin blank_username_request w
     = (Returned tt,
        World (db w) (log w ++ [Responded 400 (Text "Invalid user body")]))
  /\ exists rest,
       log (resetPassword blank_username_request w).2
       = log w
         ++ ServiceEntered (UpdateUser (Some "   ") (password_only (Some "secret")))
         :: rest.
Proof.
  split; [done|]. split; [done|]. split; [done|].
  unfold resetPassword, blank_username_request, user_body, try_catch, bind, ret.
  simpl. rewrite updateUser_run.
  destruct (UserModel.findOneAndUpdate _ _ _) as [c s1].
  match goal with
  | |- context [if has_key "error" ?r then _ else _] =>
      destruct (has_key "error" r);
      [destruct (bool_decide (r !! "error" = Some (Js.VString "User not found")))|]
  end; unfold respond, record; simpl; rewrite <- app_assoc; simpl; eauto.
Qed.


Lemma events_since_app (w : world S) s' evs :
  events_since w (World s' (log w ++ evs)) = evs.
Proof. unfold events_since. simpl. by rewrite drop_app_length. Qed.

(** C5: when the request is valid and the store's create call returns the
    document [d], [addMessageRoute] saves through [saveMessage], then emits
    one "messageUpdate" event with payload [{ msg: d }], then answers 200
    with [d]; these are all the effects, in this order.  [d] goes out with
    its four properties: the identifier and the [msgDateTime] the store gave
    it, its [msg] and its [msgFrom]. *)
Theorem addMessageRoute_publishes_stored
    (req : AddMessageRequest.t) (b : AddMessageBody.t) (message : Message.t)
    (d : MessageDoc.t) (s1 : S) (w : world S) :
  AddMessageRequest.body req = Some b ->
  AddMessageBody.messageToAdd b = Some message ->
  isMessageValid (Some message) = true ->
  MessageModel.create
    {| MessageFields.msg := Message.msg message;
       MessageFields.msgFrom := Message.msgFrom message;
       MessageFields.msgDateTime :=
         default (now (db w)) (Message.msgDateTime message) |} (db w)
  = (Returned d, s1) ->
  let stored : obj :=
    {[ "_id" := Js.VObjectId (MessageDoc._id d);
       "msg" := Js.opt_string (MessageDoc.msg d);
       "msgFrom" := Js.opt_string (MessageDoc.msgFrom d);
       "msgDateTime" := Js.VDate (MessageDoc.msgDateTime d) ]} in
  addMessageRoute req w
  = (Returned tt,
     World s1
       (log w ++ [ServiceEntered (SaveMessage message);
                  StoreSettled MessageCreate false;
                  Emitted "messageUpdate" {[ "msg" := stored ]};
                  Responded 200 (Json stored)]))
  /\ length (List.filter is_emit (events_since w (addMessageRoute req w).2)) = 1%nat.
Proof.
  intros Hbody Hmsg Hvalid Hcreate stored.
  assert (addMessageRoute req w
          = (Returned tt,
             World s1
               (log w ++ [ServiceEntered (SaveMessage message);
                          StoreSettled MessageCreate false;
                          Emitted "messageUpdate" {[ "msg" := message_obj d ]};
                          Responded 200 (Json (message_obj d))]))) as Hrun.
  { unfold addMessageRoute, isRequestValid, message_body, try_catch, bind, ret.
    rewrite Hbody, Hmsg. cbn beta iota.
    rewrite bool_decide_eq_true_2 by eauto. cbn [negb].
    rewrite Hvalid. cbn [negb].
    rewrite saveMessage_run. cbn zeta. rewrite Hcreate. cbn beta iota.
    rewrite message_obj_has_error. unfold emit, respond, record. simpl.
    by rewrite <- !app_assoc. }
  split; [exact Hrun|]. rewrite Hrun. simpl. by rewrite events_since_app.
Qed.

End AnyStore.

Section InMemory.
Implicit Types (s : MemStore.t) (w : world MemStore.t).

Lemma calm_next n s :
  MemStore.calm (S n) s ->
  MemStore.next_fault s = false /\ MemStore.calm n (MemStore.advance s).
Proof.
  unfold MemStore.calm, MemStore.next_fault, MemStore.advance.
  destruct s as [us ms i c fs]; simpl. destruct fs as [|b fs]; simpl.
  - intros _. split; [done|]. by rewrite take_nil.
  - intros H. apply Forall_cons in H as [-> H]. done.
Qed.

Lemma call_calm {A} (run : MemStore.t -> completion A * MemStore.t) n s :
  MemStore.calm (S n) s -> MemStore.call run s = run (MemStore.advance s).
Proof. intros [H _]%calm_next. unfold MemStore.call. by rewrite H. Qed.

Lemma call_failing {A} (run : MemStore.t -> completion A * MemStore.t) s :
  MemStore.failing s ->
  MemStore.call run s = (Thrown (Error "Database error"), MemStore.advance s).
Proof. intros H. unfold MemStore.call. by rewrite H. Qed.

Lemma first_match_advance username s :
  MemStore.first_match username (MemStore.advance s) = MemStore.first_match username s.
Proof. done. Qed.

Lemma first_match_Some username s d :
  MemStore.first_match username s = Some d ->
  d ∈ MemStore.users s /\ UserDoc.username d = username.
Proof.
  unfold MemStore.first_match. intros [Hin Hm]%find_some.
  split; [by apply list_elem_of_In|].
  unfold MemStore.matches in Hm. by apply bool_decide_eq_true in Hm.
Qed.

Lemma first_match_taken username s :
  MemStore.username_taken username s <-> is_Some (MemStore.first_match username s).
Proof.
  split.
  - intros (d & Hin & Hname).
    destruct (MemStore.first_match username s) eqn:E; [eauto|].
    unfold MemStore.first_match in E.
    apply list_elem_of_In in Hin. apply (find_none _ _ E d) in Hin.
    unfold MemStore.matches in Hin. by apply bool_decide_eq_false in Hin.
  - intros [d Hd]. exists d. by apply first_match_Some.
Qed.

Lemma first_match_free username s :
  ~ MemStore.username_taken username s -> MemStore.first_match username s = None.
Proof.
  intros H. destruct (MemStore.first_match username s) eqn:E; [|done].
  exfalso. apply H, first_match_taken. eauto.
Qed.

(** C1: with the store answering, [saveUser] returns the error "Username
    already exists" whenever some stored user has the username, whatever the
    passwords; otherwise it appends one record with the given username and
    password and with [dateJoined] read from the clock, not from the
    argument, and returns that record's [_id], [username], [dateJoined]. *)
Theorem saveUser_creates_or_rejects (user : User.t) w :
  (MemStore.calm 1 (db w) ->
   MemStore.username_taken (User.username user) (db w) ->
   (saveUser user w).1 = Returned (error_obj "Username already exists")
   /\ MemStore.users (db (saveUser user w).2) = MemStore.users (db w))
  /\ (MemStore.calm 2 (db w) ->
      ~ MemStore.username_taken (User.username user) (db w) ->
      exists d,
        MemStore.users (db (saveUser user w).2) = MemStore.users (db w) ++ [d]
        /\ UserDoc.username d = User.username user
        /\ UserDoc.password d = User.password user
        /\ UserDoc.dateJoined d = MemStore.clock (db w)
        /\ (saveUser user w).1
           = Returned {[ "_id" := Js.VObjectId (UserDoc._id d);
                         "username" := Js.opt_string (User.username user);
                         "dateJoined" := Js.VDate (MemStore.clock (db w)) ]}).
Proof.
  split.
  - intros Hcalm [d Hd]%first_match_taken.
    rewrite saveUser_run. simpl. unfold MemStore.user_findOne.
    rewrite (call_calm _ 0) by done. by rewrite first_match_advance, Hd.
  - intros Hcalm Hfree%first_match_free.
    apply calm_next in Hcalm as Hc. destruct Hc as [_ Hcalm'].
    rewrite saveUser_run. simpl. unfold MemStore.user_findOne.
    rewrite (call_calm _ 1) by done.
    rewrite first_match_advance, Hfree.
    unfold MemStore.user_create. rewrite (call_calm _ 0) by done. simpl.
    eexists. repeat split.
Qed.


(** C2: a login with a stored username and a wrong password and a login with
    a username nobody has both return the same error object, "Invalid
    username or password"; a login whose password equals the stored one
    returns the stored user's [_id], [username] and [dateJoined], and nothing
    else. *)
Theorem loginUser_failures_indistinguishable
    (wrong absent right : UserCredentials.t) (d1 d3 : UserDoc.t) w1 w2 w3 :
  (MemStore.calm 1 (db w1) ->
   MemStore.first_match (UserCredentials.username wrong) (db w1) = Some d1 ->
   UserDoc.password d1 <> UserCredentials.password wrong ->
   MemStore.calm 1 (db w2) ->
   ~ MemStore.username_taken (UserCredentials.username absent) (db w2) ->
   (loginUser wrong w1).1 = Returned (error_obj "Invalid username or password")
   /\ (loginUser absent w2).1 = (loginUser wrong w1).1)
  /\ (MemStore.calm 1 (db w3) ->
      MemStore.first_match (UserCredentials.username right) (db w3) = Some d3 ->
      UserDoc.password d3 = UserCredentials.password right ->
      (loginUser right w3).1
      = Returned {[ "_id" := Js.VObjectId (UserDoc._id d3);
                    "username" := Js.opt_string (UserCredentials.username right);
                    "dateJoined" := Js.VDate (UserDoc.dateJoined d3) ]}).
Proof.
  split.
  - intros Hc1 Hd1 Hpw Hc2 Hfree%first_match_free.
    rewrite !loginUser_run. simpl. unfold MemStore.user_findOne.
    rewrite !(call_calm _ 0) by done. rewrite !first_match_advance, Hd1, Hfree.
    simpl. by rewrite bool_decide_eq_true_2.
  - intros Hc3 Hd3 Hpw.
    destruct (first_match_Some _ _ _ Hd3) as [_ <-].
    rewrite loginUser_run. simpl. unfold MemStore.user_findOne.
    rewrite (call_calm _ 0) by done. rewrite first_match_advance, Hd3.
    simpl. rewrite bool_decide_eq_false_2; [done|]. by intros H.
Qed.

#[local] Instance by_msgDateTime_trans : Transitive MemStore.by_msgDateTime.
Proof. unfold MemStore.by_msgDateTime. intros a b c. lia. Qed.

#[local] Instance by_msgDateTime_total : Total MemStore.by_msgDateTime.
Proof. unfold MemStore.by_msgDateTime. intros a b. lia. Qed.

Lemma sort_two_dates (a b : MessageDoc.t) :
  MessageDoc.msgDateTime a = date_2024_06_04 ->
  MessageDoc.msgDateTime b = date_2024_06_05 ->
  merge_sort MemStore.by_msgDateTime [a; b] = [a; b]
  /\ merge_sort MemStore.by_msgDateTime [b; a] = [a; b].
Proof.
  intros Ha Hb.
  assert (MemStore.by_msgDateTime a b) as Hab
    by (unfold MemStore.by_msgDateTime, date_2024_06_04, date_2024_06_05 in *; lia).
  assert (~ MemStore.by_msgDateTime b a) as Hba
    by (unfold MemStore.by_msgDateTime, date_2024_06_04, date_2024_06_05 in *; lia).
  unfold merge_sort. simpl.
  rewrite !decide_True by done. rewrite !decide_False by done. done.
Qed.

(** C3: with the store answering, [getMessages] returns the stored messages,
    all of them, in non-decreasing order of [msgDateTime]; two messages of
    2024-06-04 and 2024-06-05 come back the earlier first, whichever was
    inserted first; when the store call fails it returns the empty list. *)
Theorem getMessages_ascending w :
  (MemStore.calm 1 (db w) ->
   exists l,
     (getMessages w).1 = Returned l
     /\ l ≡ₚ MemStore.messages (db w)
     /\ StronglySorted MemStore.by_msgDateTime l)
  /\ (forall a b,
        MemStore.calm 1 (db w) ->
        MessageDoc.msgDateTime a = date_2024_06_04 ->
        MessageDoc.msgDateTime b = date_2024_06_05 ->
        MemStore.messages (db w) = [a; b] \/ MemStore.messages (db w) = [b; a] ->
        (getMessages w).1 = Returned [a; b])
  /\ (MemStore.failing (db w) -> (getMessages w).1 = Returned []).
Proof.
  repeat split.
  - intros Hc. rewrite getMessages_run. simpl. unfold MemStore.message_find_sorted.
    rewrite (call_calm _ 0) by done. simpl. eexists. split; [done|]. split.
    + apply merge_sort_Permutation.
    + apply (StronglySorted_merge_sort _).
  - intros a b Hc Ha Hb Hms.
    destruct (sort_two_dates a b Ha Hb) as [Hab Hba].
    rewrite getMessages_run. simpl. unfold MemStore.message_find_sorted.
    rewrite (call_calm _ 0) by done. simpl.
    destruct Hms as [-> | ->]; by f_equal.
  - intros Hf. rewrite getMessages_run. simpl. unfold MemStore.message_find_sorted.
    by rewrite call_failing.
Qed.


Lemma replace_first_joined (p : UserDoc.t -> bool) (y x : UserDoc.t) l :
  List.find p l = Some x -> joined y = joined x ->
  joined <$> MemStore.replace_first p y l = joined <$> l.
Proof.
  induction l as [|z l IH]; [done|].
  cbn [List.find MemStore.replace_first]. destruct (p z) eqn:Hp.
  - intros [= ->] Hj. rewrite !fmap_cons. by rewrite Hj.
  - intros Hfind Hj. rewrite !fmap_cons. by rewrite IH.
Qed.

Lemma remove_first_sublist {A} (p : A -> bool) (l : list A) :
  MemStore.remove_first p l `sublist_of` l.
Proof.
  induction l as [|z l IH]; simpl; [done|].
  destruct (p z).
  - by apply sublist_cons.
  - by apply sublist_skip.
Qed.

Lemma joined_set_fields updates d :
  UserUpdates.dateJoined updates = None ->
  joined (MemStore.set_fields updates d) = joined d.
Proof. intros H. unfold joined, MemStore.set_fields. simpl. by rewrite H. Qed.

(** C4, as the code has it: [updateUser] with partial fields that carry no
    [dateJoined] leaves the identifier and [dateJoined] of every stored user
    as they were, and no other service changes a stored user: [saveUser]
    only appends, [deleteUserByUsername] only removes, the others leave the
    users alone. *)
Theorem dateJoined_kept_without_dateJoined_update w :
  (forall username updates,
     UserUpdates.dateJoined updates = None ->
     joined <$> MemStore.users (db (updateUser username updates w).2)
     = joined <$> MemStore.users (db w))
  /\ (forall user,
        MemStore.users (db w) `prefix_of` MemStore.users (db (saveUser user w).2))
  /\ (forall username,
        MemStore.users (db (deleteUserByUsername username w).2)
        `sublist_of` MemStore.users (db w))
  /\ (forall credentials,
        MemStore.users (db (loginUser credentials w).2) = MemStore.users (db w))
  /\ (forall username,
        MemStore.users (db (getUserByUsername username w).2) = MemStore.users (db w))
  /\ (forall message,
        MemStore.users (db (saveMessage message w).2) = MemStore.users (db w))
  /\ MemStore.users (db (getMessages w).2) = MemStore.users (db w).
Proof.
  repeat split.
  - intros username updates Hnone. rewrite updateUser_run. simpl.
    unfold MemStore.user_findOneAndUpdate, MemStore.call.
    destruct (MemStore.next_fault (db w)); [done|].
    rewrite first_match_advance.
    destruct (MemStore.first_match username (db w)) as [d|] eqn:Hd; [|done].
    destruct (MemStore.changes_id updates d); [done|]. simpl.
    apply (replace_first_joined _ _ d); [done|]. by apply joined_set_fields.
  - intros user. rewrite saveUser_run. simpl.
    unfold MemStore.user_findOne, MemStore.call.
    destruct (MemStore.next_fault (db w)); [done|].
    rewrite first_match_advance.
    destruct (MemStore.first_match _ (db w)); [done|].
    unfold MemStore.user_create, MemStore.call.
    destruct (MemStore.next_fault _); simpl; [done|].
    by apply prefix_app_r.
  - intros username. rewrite deleteUserByUsername_run. simpl.
    unfold MemStore.user_findOneAndDelete, MemStore.call.
    destruct (MemStore.next_fault (db w)); [done|].
    rewrite first_match_advance.
    destruct (MemStore.first_match username (db w)); [|done]. simpl.
    apply remove_first_sublist.
  - intros credentials. rewrite loginUser_run. simpl.
    unfold MemStore.user_findOne, MemStore.call.
    by destruct (MemStore.next_fault (db w)).
  - intros username. rewrite getUserByUsername_run. simpl.
    unfold MemStore.user_findOne, MemStore.call.
    by destruct (MemStore.next_fault (db w)).
  - intros message. rewrite saveMessage_run. simpl.
    unfold MemStore.message_create, MemStore.call.
    by destruct (MemStore.next_fault (db w)).
  - rewrite getMessages_run. simpl.
    unfold MemStore.message_find_sorted, MemStore.call.
    by destruct (MemStore.next_fault (db w)).
Qed.

(** C4, as stated, fails: the update [{ dateJoined: new Date(0) }] rewrites
    the stored [dateJoined] of "user1". *)
Lemma updateUser_overwrites_dateJoined :
  joined <$> MemStore.users (db joined_world) = [(0%N, date_2024_12_03)]
  /\ joined
      <$> MemStore.users (db (updateUser (Some "user1") backdate joined_world).2)
     = [(0%N, 0)].
Proof. split; reflexivity. Qed.

Lemma not_failing_calm s : MemStore.next_fault s = false -> MemStore.calm 1 s.
Proof.
  unfold MemStore.next_fault, MemStore.calm. destruct (MemStore.faults s); simpl.
  - intros _. constructor.
  - intros ->. rewrite take_0. by repeat constructor.
Qed.

Lemma Returned_inj {A} (a b : A) : Returned a = Returned b -> a = b.
Proof. by intros [=]. Qed.

Lemma message_obj_not_error d message : message_obj d <> error_obj message.
Proof.
  intros H. pose proof (message_obj_no_error d) as Hd.
  rewrite H, error_obj_lookup in Hd. done.
Qed.

(** C9: [saveMessage] appends the message to the store, with [msgDateTime]
    the message's own when it has one and the clock's otherwise, and returns
    the stored record with all its properties ([_id], [msg], [msgFrom],
    [msgDateTime]); it returns the error "Failed to save message" when the
    create call fails, and only then. *)
Theorem saveMessage_stores_or_fails (message : Message.t) w :
  (MemStore.calm 1 (db w) ->
   exists d,
     (saveMessage message w).1
     = Returned {[ "_id" := Js.VObjectId (MessageDoc._id d);
                   "msg" := Js.opt_string (Message.msg message);
                   "msgFrom" := Js.opt_string (Message.msgFrom message);
                   "msgDateTime" :=
                     Js.VDate match Message.msgDateTime message with
                              | Some t => t
                              | None => MemStore.clock (db w)
                              end ]}
     /\ MemStore.messages (db (saveMessage message w).2)
        = MemStore.messages (db w) ++ [d]
     /\ MessageDoc.msg d = Message.msg message
     /\ MessageDoc.msgFrom d = Message.msgFrom message
     /\ MessageDoc.msgDateTime d
        = match Message.msgDateTime message with
          | Some t => t
          | None => MemStore.clock (db w)
          end)
  /\ (MemStore.failing (db w) ->
      (saveMessage message w).1 = Returned (error_obj "Failed to save message")
      /\ MemStore.messages (db (saveMessage message w).2) = MemStore.messages (db w))
  /\ ((saveMessage message w).1 = Returned (error_obj "Failed to save message")
      <-> MemStore.failing (db w)).
Proof.
  assert (MemStore.failing (db w) ->
          (saveMessage message w).1 = Returned (error_obj "Failed to save message")
          /\ MemStore.messages (db (saveMessage message w).2)
             = MemStore.messages (db w)) as Hfail.
  { intros Hf. rewrite saveMessage_run. simpl. unfold MemStore.message_create.
    by rewrite call_failing. }
  assert (MemStore.calm 1 (db w) ->
          exists d,
            (saveMessage message w).1 = Returned (message_obj d)
            /\ MemStore.messages (db (saveMessage message w).2)
               = MemStore.messages (db w) ++ [d]
            /\ MessageDoc.msg d = Message.msg message
            /\ MessageDoc.msgFrom d = Message.msgFrom message
            /\ MessageDoc.msgDateTime d
               = match Message.msgDateTime message with
                 | Some t => t
                 | None => MemStore.clock (db w)
                 end) as Hcalm.
  { intros Hc. rewrite saveMessage_run. simpl. unfold MemStore.message_create.
    rewrite (call_calm _ 0) by done. simpl. eexists. repeat split. }
  split.
  { intros Hc. destruct (Hcalm Hc) as (d & Hr & Hm & Hmsg & Hfrom & Hdate).
    exists d. rewrite Hr. unfold message_obj. rewrite Hmsg, Hfrom, Hdate. done. }
  split; [done|]. split; [|by intros [? _]%Hfail].
  intros Herr. unfold MemStore.failing.
  destruct (MemStore.next_fault (db w)) eqn:Hnf; [done|].
  apply not_failing_calm, Hcalm in Hnf as (d & Hd & _).
  rewrite Hd in Herr. apply Returned_inj in Herr. by apply message_obj_not_error in Herr.
Qed.

End InMemory.

(** ** The theorems at the fixtures *)

Lemma calm_empty_schedule n (s : MemStore.t) :
  MemStore.faults s = [] -> MemStore.calm n s.
Proof. intros H. unfold MemStore.calm. rewrite H, take_nil. constructor. Qed.

Lemma free_in_empty username (s : MemStore.t) :
  MemStore.users s = [] -> ~ MemStore.username_taken username s.
Proof. intros H (d & Hin & _). rewrite H in Hin. by apply not_elem_of_nil in Hin. Qed.

Lemma saveUser_creates_or_rejects_witness :
  ((saveUser user1 joined_world).1 = Returned (error_obj "Username already exists")
   /\ MemStore.users (db (saveUser user1 joined_world).2)
      = MemStore.users (db joined_world))
  /\ exists d,
       MemStore.users (db (saveUser user1 empty_world).2)
       = MemStore.users (db empty_world) ++ [d]
       /\ UserDoc.username d = User.username user1
       /\ UserDoc.password d = User.password user1
       /\ UserDoc.dateJoined d = MemStore.clock (db empty_world)
       /\ (saveUser user1 empty_world).1
          = Returned {[ "_id" := Js.VObjectId (UserDoc._id d);
                        "username" := Js.opt_string (User.username user1);
                        "dateJoined" := Js.VDate (MemStore.clock (db empty_world)) ]}.
Proof.
  split.
  - apply (proj1 (saveUser_creates_or_rejects user1 joined_world)).
    + apply calm_empty_schedule. reflexivity.
    + exists stored_user1. split; [left | reflexivity].
  - apply (proj2 (saveUser_creates_or_rejects user1 empty_world)).
    + apply calm_empty_schedule. reflexivity.
    + apply free_in_empty. reflexivity.
Defined.

Lemma loginUser_failures_indistinguishable_witness :
  ((loginUser (UserCredentials.mk (Some "user1") (Some "wrongpassword")) joined_world).1
   = Returned (error_obj "Invalid username or password")
   /\ (loginUser (UserCredentials.mk (Some "nonexistent") (Some "anypassword"))
        empty_world).1
      = (loginUser (UserCredentials.mk (Some "user1") (Some "wrongpassword"))
           joined_world).1)
  /\ (loginUser (UserCredentials.mk (Some "user1") (Some "password")) joined_world).1
     = Returned {[ "_id" := Js.VObjectId 0;
                   "username" := Js.VString "user1";
                   "dateJoined" := Js.VDate date_2024_12_03 ]}.
Proof.
  pose proof
    (loginUser_failures_indistinguishable
       (UserCredentials.mk (Some "user1") (Some "wrongpassword"))
       (UserCredentials.mk (Some "nonexistent") (Some "anypassword"))
       (UserCredentials.mk (Some "user1") (Some "password"))
       stored_user1 stored_user1 joined_world empty_world joined_world) as [Hfail Hok].
  split.
  - apply Hfail.
    + apply calm_empty_schedule. reflexivity.
    + reflexivity.
    + simpl. discriminate.
    + apply calm_empty_schedule. reflexivity.
    + apply free_in_empty. reflexivity.
  - apply Hok.
    + apply calm_empty_schedule. reflexivity.
    + reflexivity.
    + reflexivity.
Defined.

Lemma getMessages_ascending_witness :
  (exists l,
     (getMessages reversed_world).1 = Returned l
     /\ l ≡ₚ MemStore.messages (db reversed_world)
     /\ StronglySorted MemStore.by_msgDateTime l)
  /\ (getMessages reversed_world).1 = Returned [message1; message2]
  /\ (getMessages failing_world).1 = Returned [].
Proof.
  pose proof (getMessages_ascending reversed_world) as (Hsorted & Htwo & _).
  pose proof (getMessages_ascending failing_world) as (_ & _ & Hfail).
  split; [|split].
  - apply Hsorted. apply calm_empty_schedule. reflexivity.
  - apply Htwo.
    + apply calm_empty_schedule. reflexivity.
    + reflexivity.
    + reflexivity.
    + right. reflexivity.
  - apply Hfail. reflexivity.
Defined.

Lemma dateJoined_kept_without_dateJoined_update_witness :
  joined
  <$> MemStore.users
        (db (updateUser (Some "user1") (password_only (Some "newPassword")) joined_world).2)
  = joined <$> MemStore.users (db joined_world).
Proof.
  apply (proj1 (dateJoined_kept_without_dateJoined_update joined_world)).
  reflexivity.
Defined.

Lemma addMessageRoute_publishes_stored_witness :
  let stored :=
    MessageDoc.mk 0 (Some "Hello") (Some "User1") (MemStore.clock (db empty_world)) in
  let sent : obj :=
    {[ "_id" := Js.VObjectId 0;
       "msg" := Js.VString "Hello";
       "msgFrom" := Js.VString "User1";
       "msgDateTime" := Js.VDate date_2024_12_04 ]} in
  addMessageRoute hello_request empty_world
  = (Returned tt,
     World (MemStore.mk [] [stored] 1 date_2024_12_04 [])
       (log empty_world
        ++ [ServiceEntered (SaveMessage hello);
            StoreSettled MessageCreate false;
            Emitted "messageUpdate" {[ "msg" := sent ]};
            Responded 200 (Json sent)]))
  /\ length
       (List.filter is_emit
          (events_since empty_world (addMessageRoute hello_request empty_world).2))
     = 1%nat.
Proof.
  intros stored sent.
  exact (addMessageRoute_publishes_stored hello_request
           (AddMessageBody.mk (Some hello)) hello stored
           (MemStore.mk [] [stored] 1 date_2024_12_04 []) empty_world
           eq_refl eq_refl eq_refl eq_refl).
Defined.

Lemma resetPassword_rejects_empty_password_witness :
  resetPassword (UserRequest.mk (Some empty_password_body)) joined_world
  = (Returned tt,
     World (db joined_world)
       (log joined_world ++ [Responded 400 (Text "Invalid user body")])).
Proof.
  apply (resetPassword_rejects_empty_password _ empty_password_body).
  - reflexivity.
  - right. reflexivity.
Defined.

Lemma saveMessage_stores_or_fails_witness :
  (exists d,
     (saveMessage hello empty_world).1
     = Returned {[ "_id" := Js.VObjectId (MessageDoc._id d);
                   "msg" := Js.opt_string (Message.msg hello);
                   "msgFrom" := Js.opt_string (Message.msgFrom hello);
                   "msgDateTime" :=
                     Js.VDate match Message.msgDateTime hello with
                              | Some t => t
                              | None => MemStore.clock (db empty_world)
                              end ]}
     /\ MemStore.messages (db (saveMessage hello empty_world).2)
        = MemStore.messages (db empty_world) ++ [d]
     /\ MessageDoc.msg d = Message.msg hello
     /\ MessageDoc.msgFrom d = Message.msgFrom hello
     /\ MessageDoc.msgDateTime d
        = match Message.msgDateTime hello with
          | Some t => t
          | None => MemStore.clock (db empty_world)
          end)
  /\ ((saveMessage hello failing_world).1
      = Returned (error_obj "Failed to save message")
      /\ MemStore.messages (db (saveMessage hello failing_world).2)
         = MemStore.messages (db failing_world)).
Proof.
  split.
  - apply (proj1 (saveMessage_stores_or_fails hello empty_world)).
    apply calm_empty_schedule. reflexivity.
  - apply (proj1 (proj2 (saveMessage_stores_or_fails hello failing_world))).
    reflexivity.
Defined.

(** ** The handlers end to end, on the in-memory store *)

(** [POST /user/signup { username: "user1", password: "password" }] on an
    empty store: 200 with the safe projection, [dateJoined] read from the
    clock, and the record stored with its password. *)
Example signup_end_to_end :
  let req := UserRequest.mk (Some (UserCredentials.mk (Some "user1") (Some "password"))) in
  let w' := (createUser req empty_world).2 in
  last (log w')
  = Some (Responded 200
            (Json {[ "_id" := Js.VObjectId 0;
                     "username" := Js.VString "user1";
                     "dateJoined" := Js.VDate date_2024_12_04 ]}))
  /\ MemStore.users (db w')
     = [UserDoc.mk 0 (Some "user1") (Some "password") date_2024_12_04].
Proof. split; reflexivity. Qed.

(** A second signup with the same username and another password: 400. *)
Example signup_taken :
  let req := UserRequest.mk (Some (UserCredentials.mk (Some "user1") (Some "other"))) in
  last (log (createUser req joined_world).2)
  = Some (Responded 400 (Json (error_obj "Username already exists"))).
Proof. reflexivity. Qed.

(** [POST /user/login] with a wrong password: 401. *)
Example login_wrong_password :
  let req := UserRequest.mk (Some (UserCredentials.mk (Some "user1") (Some "wrongpassword"))) in
  events_since joined_world (userLogin req joined_world).2
  = [ServiceEntered (LoginUser (UserCredentials.mk (Some "user1") (Some "wrongpassword")));
     StoreSettled UserFindOne false;
     Responded 401 (Json (error_obj "Invalid username or password"))].
Proof. reflexivity. Qed.

(** [PATCH /user/resetPassword] stores the new password and keeps
    [dateJoined]. *)
Example reset_password_end_to_end :
  let req := UserRequest.mk (Some (UserCredentials.mk (Some "user1") (Some "newPassword"))) in
  let w' := (resetPassword req joined_world).2 in
  last (log w') = Some (Responded 200 (Json (safe_user stored_user1)))
  /\ MemStore.users (db w')
     = [UserDoc.mk 0 (Some "user1") (Some "newPassword") date_2024_12_03].
Proof. split; reflexivity. Qed.

(** A request without a body is answered by the handler's catch-all. *)
Example signup_without_body :
  events_since empty_world (createUser (UserRequest.mk None) empty_world).2
  = [Responded 500 (Json (error_obj "Internal server error"))].
Proof. reflexivity. Qed.

(** [GET /message/getMessages]: 200 with the messages in ascending order;
    200 with the empty array when the store fails. *)
Example getMessagesRoute_end_to_end :
  last (log (getMessagesRoute reversed_world).2)
  = Some (Responded 200 (JsonArray [message_obj message1; message_obj message2]))
  /\ last (log (getMessagesRoute failing_world).2)
     = Some (Responded 200 (JsonArray [])).
Proof. split; reflexivity. Qed.

(** A store error on create: 500 with the tagged error, and nothing emitted. *)
Example addMessage_store_error :
  events_since failing_world (addMessageRoute hello_request failing_world).2
  = [ServiceEntered (SaveMessage hello);
     StoreSettled MessageCreate true;
     Responded 500 (Json (error_obj "Failed to save message"))].
Proof. reflexivity. Qed.

(** * Further properties of the services and handlers *)

(** ** White space and the validators *)

Lemma chars_nonempty_upto (n : nat) (s : string) :
  (String.length s <= n)%nat -> Forall (fun ch => ch <> "") (Js.chars s).
Proof.
  revert s. induction n as [|n IH]; intros s Hn.
  - destruct s; [constructor|simpl in Hn; lia].
  - destruct s as [|a s1]; [constructor|]. simpl.
    destruct (Js.width a) as [|[|[|[|[|?]]]]];
      repeat match goal with
             | |- context [match ?x with EmptyString => _ | String _ _ => _ end] =>
                 destruct x
             end;
      (apply Forall_cons_2; [done|apply IH; simpl in *; lia]).
Qed.

Lemma chars_nonempty (s : string) : Forall (fun ch => ch <> "") (Js.chars s).
Proof. by apply (chars_nonempty_upto (String.length s)). Qed.

Lemma drop_while_nil {A} (p : A -> bool) (l : list A) :
  Js.drop_while p l = [] <-> forallb p l = true.
Proof.
  induction l as [|x l IH]; simpl; [done|].
  destruct (p x); simpl; [done|]. split; discriminate.
Qed.

Lemma drop_while_stops {A} (p : A -> bool) (l : list A) :
  forallb p (Js.drop_while p l) = true -> Js.drop_while p l = [].
Proof.
  induction l as [|x l IH]; simpl; [done|].
  destruct (p x) eqn:Hx; [done|]. simpl. by rewrite Hx.
Qed.

Lemma drop_while_elem {A} (p : A -> bool) (l : list A) x :
  x ∈ Js.drop_while p l -> x ∈ l.
Proof.
  induction l as [|y l IH]; simpl; [done|].
  destruct (p y); [|done]. intros Hx. right. by apply IH.
Qed.

Lemma forallb_rev {A} (p : A -> bool) (l : list A) :
  forallb p (rev l) = forallb p l.
Proof.
  induction l as [|x l IH]; simpl; [done|].
  rewrite forallb_app, IH. simpl. rewrite andb_true_r. apply andb_comm.
Qed.

Lemma elem_of_rev_1 {A} (l : list A) x : x ∈ rev l -> x ∈ l.
Proof. rewrite !list_elem_of_In. apply in_rev. Qed.

Lemma join_empty (l : list string) :
  Forall (fun ch => ch <> "") l -> Js.join l = "" -> l = [].
Proof.
  destruct 1 as [|ch l Hch _]; [done|]. simpl. by destruct ch.
Qed.

Lemma isWhiteSpace_table (ch : string) : Js.isWhiteSpace ch = white_space_char ch.
Proof.
  unfold Js.isWhiteSpace, white_space_char. destruct (Js.code_point ch) as [c|]; [|done].
  induction Js.white_space as [|x l IH]; simpl; [done|].
  rewrite IH. destruct (N.eqb_spec c x) as [->|Hne]; simpl.
  - symmetry. apply bool_decide_eq_true. by left.
  - apply bool_decide_ext. rewrite elem_of_cons. split; [by right | by intros [?|?]].
Qed.

Lemma blank_chars (s : string) : blank s = forallb Js.isWhiteSpace (Js.chars s).
Proof.
  unfold blank. induction (Js.chars s) as [|ch l IH]; simpl; [done|].
  by rewrite IH, isWhiteSpace_table.
Qed.

Lemma trim_empty (s : string) : Js.trim s = "" <-> blank s = true.
Proof.
  rewrite blank_chars. unfold Js.trim. split.
  - intros Hjoin. apply join_empty in Hjoin.
    + apply (f_equal (@rev string)) in Hjoin. rewrite rev_involutive in Hjoin.
      simpl in Hjoin. apply drop_while_nil in Hjoin. rewrite forallb_rev in Hjoin.
      by apply drop_while_nil, drop_while_stops.
    + apply Forall_forall. intros ch Hch.
      apply elem_of_rev_1, drop_while_elem, elem_of_rev_1, drop_while_elem in Hch.
      pose proof (chars_nonempty s) as Hne. rewrite Forall_forall in Hne. by apply Hne.
  - intros Hall. apply drop_while_nil in Hall. by rewrite Hall.
Qed.

Lemma trim_length_pos (s : string) :
  (0 <? String.length (Js.trim s))%nat = negb (blank s).
Proof.
  destruct (blank s) eqn:Hb; simpl.
  - apply trim_empty in Hb. by rewrite Hb.
  - destruct (Js.trim s) eqn:Ht; [|done].
    apply trim_empty in Ht. congruence.
Qed.

Lemma blank_empty_string (s : string) : blank s = false -> Js.truthy s = true.
Proof. by destruct s. Qed.

Lemma length_pos_truthy (s : string) : (0 <? String.length s)%nat = Js.truthy s.
Proof. by destruct s. Qed.

Section Validators.
Context {S : Type} `{!Clock S, !UserModel.Ops S, !MessageModel.Ops S}.

(** X1: [isUserBodyValid] accepts exactly the bodies whose username has a
    character that is not white space and whose password is not empty; it
    throws when there is no body. *)
Theorem isUserBodyValid_accepts (req : UserRequest.t) (w : world S) :
  ((isUserBodyValid req w).1 = Returned true
   <-> exists username password,
         UserRequest.body req
         = Some (UserCredentials.mk (Some username) (Some password))
         /\ blank username = false /\ password <> "")
  /\ (UserRequest.body req = None -> is_thrown (isUserBodyValid req w).1 = true).
Proof.
  unfold isUserBodyValid, user_body, bind, ret, throw.
  destruct req as [[[[u|] [p|]]|]]; simpl; (split; [|done]).
  - rewrite trim_length_pos, length_pos_truthy. split.
    + intros [= Hv]. exists u, p. split; [done|].
      destruct (blank u); simpl in Hv.
      * by rewrite andb_false_r in Hv.
      * split; [done|]. intros ->. simpl in Hv. by rewrite andb_false_r in Hv.
    + intros (u' & p' & [= <- <-] & Hu & Hp).
      rewrite Hu, (blank_empty_string u Hu). simpl.
      destruct p; [done|]. done.
  - split; [by intros [=]|]. by intros (? & ? & [=] & _).
  - split; [by intros [=]|]. by intros (? & ? & [=] & _).
  - split; [by intros [=]|]. by intros (? & ? & [=] & _).
  - split; [by intros [=]|]. by intros (? & ? & [=] & _).
Qed.

(** X2: [isMessageValid] accepts exactly the messages whose [msg] and
    [msgFrom] are both present with a character that is not white space; a
    [msgDateTime] is neither required nor looked at. *)
Theorem isMessageValid_accepts (message : option Message.t) :
  isMessageValid message = true
  <-> exists msg msgFrom msgDateTime,
        message = Some (Message.mk (Some msg) (Some msgFrom) msgDateTime)
        /\ blank msg = false /\ blank msgFrom = false.
Proof.
  destruct message as [[[m|] [f|] t]|]; simpl.
  - rewrite !trim_length_pos. split.
    + intros Hv. exists m, f, t. split; [done|].
      destruct (blank m), (blank f); simpl in Hv;
        rewrite ?andb_false_r, ?andb_false_l in Hv; done.
    + intros (m' & f' & t' & [= <- <- <-] & Hm & Hf).
      by rewrite Hm, Hf, (blank_empty_string m Hm), (blank_empty_string f Hf).
  - split; [done|]. by intros (? & ? & ? & [=] & _).
  - split; [done|]. by intros (? & ? & ? & [=] & _).
  - split; [done|]. by intros (? & ? & ? & [=] & _).
  - split; [done|]. by intros (? & ? & ? & [=] & _).
Qed.

End Validators.

(** ** The handlers, whatever the store does *)

Ltac pick_reply :=
  match goal with
  | |- context [if has_key "error" ?r then _ else _] =>
      destruct (has_key "error" r);
      [match goal with
       | |- context [if bool_decide ?P then _ else _] => destruct (bool_decide P)
       end|]
  end.

Ltac answered :=
  unfold respond, emit, record; simpl; rewrite <- ?app_assoc;
  split; [reflexivity|]; simpl; rewrite events_since_app; simpl;
  split; [reflexivity | eauto].

Section Handlers.
Context {S : Type} `{!Clock S, !UserModel.Ops S, !MessageModel.Ops S}.

(** X3: every handler, on every request and whatever the store does, returns
    without throwing and writes exactly one response, as its last effect. *)
Theorem handlers_answer_once (w : world S) :
  (forall req, answers_once w (createUser req w))
  /\ (forall req, answers_once w (userLogin req w))
  /\ (forall req, answers_once w (getUser req w))
  /\ (forall req, answers_once w (deleteUser req w))
  /\ (forall req, answers_once w (resetPassword req w))
  /\ (forall req, answers_once w (addMessageRoute req w))
  /\ answers_once w (getMessagesRoute w).
Proof.
  split; [|split; [|split; [|split; [|split; [|split]]]]].
  - intros [[[u p]|]];
      unfold createUser, isUserBodyValid, user_body, try_catch, bind, ret, throw,
        new_Date; cbn [UserRequest.body]; [|answered].
    match goal with |- context [negb ?v] => destruct v end; cbn [negb]; [|answered].
    rewrite saveUser_run. cbn zeta.
    destruct (UserModel.findOne _ _) as [[[d|]|e] s1]; [| |]; cbn beta iota;
      [pick_reply; answered | | pick_reply; answered].
    destruct (UserModel.create _ _) as [[d|e] s2]; pick_reply; answered.
  - intros [[[u p]|]];
      unfold userLogin, isUserBodyValid, user_body, try_catch, bind, ret, throw;
      cbn [UserRequest.body]; [|answered].
    match goal with |- context [negb ?v] => destruct v end; cbn [negb]; [|answered].
    rewrite loginUser_run.
    destruct (UserModel.findOne _ _) as [c s1]; cbn beta iota; pick_reply; answered.
  - intros [u]. unfold getUser, try_catch, bind, ret. cbn [UserByUsernameRequest.username].
    destruct (Js.defined_truthy u); cbn [negb]; [|answered].
    rewrite getUserByUsername_run.
    destruct (UserModel.findOne _ _) as [c s1]; cbn beta iota; pick_reply; answered.
  - intros [u]. unfold deleteUser, try_catch, bind, ret.
    cbn [UserByUsernameRequest.username].
    destruct (Js.defined_truthy u); cbn [negb]; [|answered].
    rewrite deleteUserByUsername_run.
    destruct (UserModel.findOneAndDelete _ _) as [c s1]; cbn beta iota; pick_reply; answered.
  - intros [[[u p]|]];
      unfold resetPassword, user_body, try_catch, bind, ret, throw;
      cbn [UserRequest.body UserCredentials.username UserCredentials.password]; [|answered].
    destruct (negb (Js.defined_truthy u) || negb (Js.defined_truthy p)); [answered|].
    rewrite updateUser_run.
    destruct (UserModel.findOneAndUpdate _ _ _) as [c s1]; cbn beta iota;
      pick_reply; answered.
  - intros [[[[m|]]|]];
      unfold addMessageRoute, isRequestValid, message_body, try_catch, bind, ret, throw;
      cbn [AddMessageRequest.body AddMessageBody.messageToAdd]; [| answered | answered].
    rewrite bool_decide_eq_true_2 by eauto. cbn [negb].
    destruct (isMessageValid (Some m)); cbn [negb]; [|answered].
    rewrite saveMessage_run. cbn zeta.
    destruct (MessageModel.create _ _) as [c s1]; cbn beta iota.
    destruct (has_key "error" _); answered.
  - unfold getMessagesRoute, try_catch, bind. rewrite getMessages_run.
    destruct (MessageModel.find_sorted _) as [c s1]; cbn beta iota. answered.
Qed.


Lemma error_is (m m' : string) :
  bool_decide (error_obj m !! "error" = Some (Js.VString m')) = bool_decide (m = m').
Proof.
  rewrite error_obj_lookup. apply bool_decide_ext. split; [by intros [=]|by intros ->].
Qed.

Lemma safe_user_has_error d : has_key "error" (safe_user d) = false.
Proof.
  unfold has_key. apply bool_decide_eq_false. unfold safe_user.
  rewrite !lookup_insert_ne by done. rewrite lookup_singleton_ne by done.
  by intros [? ?].
Qed.

Lemma absent_falsy (o : option string) : absent o -> Js.defined_truthy o = false.
Proof. by intros [-> | ->]. Qed.

Ltac decide_messages :=
  repeat match goal with
         | |- context [bool_decide (?a = ?b)] =>
             first [rewrite (bool_decide_eq_true_2 (a = b)) by reflexivity
                   |rewrite (bool_decide_eq_false_2 (a = b)) by discriminate]
         end.

Ltac reply :=
  rewrite ?error_obj_has_error, ?safe_user_has_error, ?error_is; decide_messages;
  unfold respond, emit, record; cbn -[error_obj safe_user message_obj];
  rewrite <- ?app_assoc; rewrite events_since_app; reflexivity.

(** X4: signup with a valid body answers by what the store does: 400 with
    "Username already exists" when the lookup finds a user (and nothing is
    created), 200 with the safe projection of the created document, 500 with
    "Failed to save user" when the lookup or the creation throws. *)
Theorem createUser_answers_by_store
    (req : UserRequest.t) (b : UserCredentials.t) (w : world S) :
  UserRequest.body req = Some b ->
  (isUserBodyValid req w).1 = Returned true ->
  let user := {| User._id := None;
                 User.username := UserCredentials.username b;
                 User.password := UserCredentials.password b;
                 User.dateJoined := now (db w) |} in
  events_since w (createUser req w).2
  = match UserModel.findOne (UserCredentials.username b) (db w) with
    | (Returned (Some _), _) =>
        [ServiceEntered (SaveUser user);
         StoreSettled UserFindOne false;
         Responded 400 (Json (error_obj "Username already exists"))]
    | (Returned None, s1) =>
        match UserModel.create
                {| UserFields.username := UserCredentials.username b;
                   UserFields.password := UserCredentials.password b;
                   UserFields.dateJoined := now s1 |} s1 with
        | (Returned d, _) =>
            [ServiceEntered (SaveUser user);
             StoreSettled UserFindOne false;
             StoreSettled UserCreate false;
             Responded 200
               (Json {[ "_id" := Js.VObjectId (UserDoc._id d);
                        "username" := Js.opt_string (UserDoc.username d);
                        "dateJoined" := Js.VDate (UserDoc.dateJoined d) ]})]
        | (Thrown _, _) =>
            [ServiceEntered (SaveUser user);
             StoreSettled UserFindOne false;
             StoreSettled UserCreate true;
             Responded 500 (Json (error_obj "Failed to save user"))]
        end
    | (Thrown _, _) =>
        [ServiceEntered (SaveUser user);
         StoreSettled UserFindOne true;
         Responded 500 (Json (error_obj "Failed to save user"))]
    end.
Proof.
  intros Hbody Hvalid user.
  unfold createUser, try_catch, bind, ret, new_Date.
  destruct (isUserBodyValid req w) as [v w1] eqn:Hv. simpl in Hvalid. subst v.
  assert (w1 = w) as ->.
  { unfold isUserBodyValid, user_body, bind, ret in Hv. rewrite Hbody in Hv.
    by injection Hv. }
  cbn [negb]. unfold user_body. rewrite Hbody. unfold ret. cbn beta iota zeta.
  fold user. rewrite saveUser_run. cbn zeta.
  destruct (UserModel.findOne _ _) as [[[d|]|e] s1]; cbn beta iota; [reply| |reply].
  destruct (UserModel.create _ _) as [[d|e] s2]; reply.
Qed.

(** X5: login with a valid body answers 200 with the safe projection when the
    lookup finds a user with that very password, 401 with "Invalid username or
    password" when it finds none or one with another password, and 500 with
    "Failed to login" when it throws. *)
Theorem userLogin_answers_by_store
    (req : UserRequest.t) (b : UserCredentials.t) (w : world S) :
  UserRequest.body req = Some b ->
  (isUserBodyValid req w).1 = Returned true ->
  events_since w (userLogin req w).2
  = [ServiceEntered (LoginUser b);
     StoreSettled UserFindOne
       (is_thrown (UserModel.findOne (UserCredentials.username b) (db w)).1);
     match (UserModel.findOne (UserCredentials.username b) (db w)).1 with
     | Returned (Some d) =>
         if bool_decide (UserDoc.password d = UserCredentials.password b)
         then Responded 200
                (Json {[ "_id" := Js.VObjectId (UserDoc._id d);
                         "username" := Js.opt_string (UserDoc.username d);
                         "dateJoined" := Js.VDate (UserDoc.dateJoined d) ]})
         else Responded 401 (Json (error_obj "Invalid username or password"))
     | Returned None => Responded 401 (Json (error_obj "Invalid username or password"))
     | Thrown _ => Responded 500 (Json (error_obj "Failed to login"))
     end].
Proof.
  intros Hbody Hvalid.
  unfold userLogin, try_catch, bind, ret.
  destruct (isUserBodyValid req w) as [v w1] eqn:Hv. simpl in Hvalid. subst v.
  assert (w1 = w) as ->.
  { unfold isUserBodyValid, user_body, bind, ret in Hv. rewrite Hbody in Hv.
    by injection Hv. }
  cbn [negb]. unfold user_body. rewrite Hbody. unfold ret. cbn beta iota.
  rewrite loginUser_run.
  destruct (UserModel.findOne _ _) as [[[d|]|e] s1]; cbn beta iota; [|reply|reply].
  cbn [fst]. destruct (decide (UserDoc.password d = UserCredentials.password b)) as [Heq|Hne].
  - rewrite (bool_decide_eq_false_2 (_ ≠ _)) by (intros Hn; by apply Hn).
    rewrite (bool_decide_eq_true_2 (UserDoc.password d = _)) by done. reply.
  - rewrite (bool_decide_eq_true_2 (_ ≠ _)) by done.
    rewrite (bool_decide_eq_false_2 (UserDoc.password d = _)) by done. reply.
Qed.

(** X6: with a username given, [getUser], [deleteUser] and [resetPassword]
    (with a password given too) enter their service once and answer 200 with
    the safe projection of the document the store returns, 404 with "User not
    found" when it returns none, 500 with the service's own message when it
    throws. *)
Theorem lookup_handlers_answer_by_store (username : option string) (w : world S) :
  Js.defined_truthy username = true ->
  events_since w (getUser (UserByUsernameRequest.mk username) w).2
  = [ServiceEntered (GetUserByUsername username);
     StoreSettled UserFindOne (is_thrown (UserModel.findOne username (db w)).1);
     found_reply "Failed to get user" (UserModel.findOne username (db w)).1]
  /\ events_since w (deleteUser (UserByUsernameRequest.mk username) w).2
     = [ServiceEntered (DeleteUserByUsername username);
        StoreSettled UserFindOneAndDelete
          (is_thrown (UserModel.findOneAndDelete username (db w)).1);
        found_reply "Failed to delete user"
          (UserModel.findOneAndDelete username (db w)).1]
  /\ forall password,
       Js.defined_truthy password = true ->
       let req := UserRequest.mk (Some (UserCredentials.mk username password)) in
       let updates := password_only password in
       events_since w (resetPassword req w).2
       = [ServiceEntered (UpdateUser username updates);
          StoreSettled UserFindOneAndUpdate
            (is_thrown (UserModel.findOneAndUpdate username updates (db w)).1);
          found_reply "Failed to update user"
            (UserModel.findOneAndUpdate username updates (db w)).1].
Proof.
  intros Hu. split; [|split].
  - unfold getUser, try_catch, bind, ret. cbn [UserByUsernameRequest.username].
    rewrite Hu. cbn [negb]. rewrite getUserByUsername_run.
    destruct (UserModel.findOne _ _) as [[[d|]|e] s1]; cbn beta iota; reply.
  - unfold deleteUser, try_catch, bind, ret. cbn [UserByUsernameRequest.username].
    rewrite Hu. cbn [negb]. rewrite deleteUserByUsername_run.
    destruct (UserModel.findOneAndDelete _ _) as [[[d|]|e] s1]; cbn beta iota; reply.
  - intros password Hp req updates.
    unfold resetPassword, user_body, try_catch, bind, ret.
    cbn [req UserRequest.body UserCredentials.username UserCredentials.password].
    rewrite Hu, Hp. cbn [negb orb]. fold updates. rewrite updateUser_run.
    destruct (UserModel.findOneAndUpdate _ _ _) as [[[d|]|e] s1]; cbn beta iota; reply.
Qed.


(** X7: a missing or empty username is refused before any service is entered:
    [getUser] and [deleteUser] answer 400 with the JSON error "Username is
    required", [resetPassword] answers 400 with the plain text "Invalid user
    body", whatever the password. *)
Theorem missing_username_refused (username : option string) (w : world S) :
  absent username ->
  getUser (UserByUsernameRequest.mk username) w
  = (Returned tt,
     World (db w) (log w ++ [Responded 400 (Json (error_obj "Username is required"))]))
  /\ deleteUser (UserByUsernameRequest.mk username) w
     = (Returned tt,
        World (db w)
          (log w ++ [Responded 400 (Json (error_obj "Username is required"))]))
  /\ forall password,
       resetPassword (UserRequest.mk (Some (UserCredentials.mk username password))) w
       = (Returned tt,
          World (db w) (log w ++ [Responded 400 (Text "Invalid user body")])).
Proof.
  intros Hu%absent_falsy. split; [|split].
  - unfold getUser, try_catch. cbn [UserByUsernameRequest.username]. by rewrite Hu.
  - unfold deleteUser, try_catch. cbn [UserByUsernameRequest.username]. by rewrite Hu.
  - intros password. unfold resetPassword, user_body, try_catch, bind, ret.
    cbn [UserRequest.body UserCredentials.username]. by rewrite Hu.
Qed.

(** X8: a request without a body makes [createUser], [userLogin] and
    [resetPassword] fall into their catch-all: 500 with the JSON error
    "Internal server error", no service entered. *)
Theorem user_handlers_without_body (w : world S) :
  let internal :=
    (Returned tt,
     World (db w)
       (log w ++ [Responded 500 (Json (error_obj "Internal server error"))])) in
  createUser (UserRequest.mk None) w = internal
  /\ userLogin (UserRequest.mk None) w = internal
  /\ resetPassword (UserRequest.mk None) w = internal.
Proof. by repeat split. Qed.

(** X9: [addMessageRoute] refuses a request without body or without
    [messageToAdd] with the plain text "Invalid request", and a message that
    [isMessageValid] rejects with "Invalid message"; in both cases it answers
    400, enters no service and emits nothing. *)
Theorem addMessageRoute_refuses (req : AddMessageRequest.t) (w : world S) :
  (isRequestValid req = false ->
   addMessageRoute req w
   = (Returned tt, World (db w) (log w ++ [Responded 400 (Text "Invalid request")])))
  /\ (forall message,
        AddMessageRequest.body req = Some (AddMessageBody.mk (Some message)) ->
        isMessageValid (Some message) = false ->
        addMessageRoute req w
        = (Returned tt,
           World (db w) (log w ++ [Responded 400 (Text "Invalid message")]))).
Proof.
  split.
  - intros Hreq. unfold addMessageRoute, try_catch. by rewrite Hreq.
  - intros message Hbody Hmsg.
    unfold addMessageRoute, isRequestValid, message_body, try_catch, bind, ret.
    rewrite Hbody. cbn [AddMessageBody.messageToAdd].
    rewrite bool_decide_eq_true_2 by eauto. cbn [negb]. by rewrite Hmsg.
Qed.

(** X10: when the store's create call throws, [addMessageRoute] answers 500
    with the JSON error "Failed to save message" and emits no event. *)
Theorem addMessageRoute_store_error
    (req : AddMessageRequest.t) (message : Message.t) (e : exn) (s1 : S)
    (w : world S) :
  AddMessageRequest.body req = Some (AddMessageBody.mk (Some message)) ->
  isMessageValid (Some message) = true ->
  MessageModel.create
    {| MessageFields.msg := Message.msg message;
       MessageFields.msgFrom := Message.msgFrom message;
       MessageFields.msgDateTime :=
         default (now (db w)) (Message.msgDateTime message) |} (db w)
  = (Thrown e, s1) ->
  addMessageRoute req w
  = (Returned tt,
     World s1
       (log w ++ [ServiceEntered (SaveMessage message);
                  StoreSettled MessageCreate true;
                  Responded 500 (Json (error_obj "Failed to save message"))])).
Proof.
  intros Hbody Hvalid Hcreate.
  unfold addMessageRoute, isRequestValid, message_body, try_catch, bind, ret.
  rewrite Hbody. cbn [AddMessageBody.messageToAdd].
  rewrite bool_decide_eq_true_2 by eauto. cbn [negb].
  rewrite Hvalid. cbn [negb].
  rewrite saveMessage_run. cbn zeta. rewrite Hcreate. cbn beta iota.
  rewrite error_obj_has_error. unfold respond, record. simpl.
  by rewrite <- !app_assoc.
Qed.

(** X11: [getMessagesRoute] always answers 200 with an array: the messages the
    store query returns, in its order, or the empty array when the query
    throws; its own 500 branch is never taken. *)
Theorem getMessagesRoute_always_200 (w : world S) :
  events_since w (getMessagesRoute w).2
  = [ServiceEntered GetMessages;
     StoreSettled MessageFindSort (is_thrown (MessageModel.find_sorted (db w)).1);
     Responded 200
       (JsonArray
          match (MessageModel.find_sorted (db w)).1 with
          | Returned messages =>
              (fun d : MessageDoc.t =>
                 ({[ "_id" := Js.VObjectId (MessageDoc._id d);
                     "msg" := Js.opt_string (MessageDoc.msg d);
                     "msgFrom" := Js.opt_string (MessageDoc.msgFrom d);
                     "msgDateTime" := Js.VDate (MessageDoc.msgDateTime d) ]} : obj))
              <$> messages
          | Thrown _ => []
          end)].
Proof.
  unfold getMessagesRoute, try_catch, bind. rewrite getMessages_run.
  destruct (MessageModel.find_sorted _) as [[l|e] s1]; cbn beta iota;
    unfold respond, record; cbn -[message_obj]; rewrite <- app_assoc;
    by rewrite events_since_app.
Qed.


Lemma message_obj_no_password d : message_obj d !! "password" = None.
Proof. unfold message_obj. by simplify_map_eq. Qed.

Lemma hides_error status message :
  hides_password (Responded status (Json (error_obj message))).
Proof. apply error_obj_no_password. Qed.

Lemma hides_safe_user status d : hides_password (Responded status (Json (safe_user d))).
Proof. apply safe_user_no_password. Qed.

Lemma hides_message status d : hides_password (Responded status (Json (message_obj d))).
Proof. apply message_obj_no_password. Qed.

Lemma hides_messages status (l : list MessageDoc.t) :
  hides_password (Responded status (JsonArray (message_obj <$> l))).
Proof.
  simpl. apply Forall_fmap, Forall_forall. intros d _. apply message_obj_no_password.
Qed.

Lemma hides_update d : hides_password (Emitted "messageUpdate" {[ "msg" := message_obj d ]}).
Proof. simpl. apply map_Forall_singleton, message_obj_no_password. Qed.

Ltac hidden :=
  rewrite ?error_obj_has_error, ?safe_user_has_error, ?message_obj_has_error, ?error_is;
  decide_messages;
  unfold respond, emit, record; cbn -[error_obj safe_user message_obj hides_password];
  rewrite <- ?app_assoc; rewrite events_since_app;
  repeat first [apply Forall_nil_2 | apply Forall_cons_2];
  first [apply hides_error | apply hides_safe_user | apply hides_message
        | apply hides_update | apply (hides_messages _ []) | apply hides_messages
        | exact I].

(** X12: whatever the request and whatever the store returns, no JSON response
    and no socket payload of any handler has a [password] property. *)
Theorem handlers_hide_password (w : world S) :
  (forall req, Forall hides_password (events_since w (createUser req w).2))
  /\ (forall req, Forall hides_password (events_since w (userLogin req w).2))
  /\ (forall req, Forall hides_password (events_since w (getUser req w).2))
  /\ (forall req, Forall hides_password (events_since w (deleteUser req w).2))
  /\ (forall req, Forall hides_password (events_since w (resetPassword req w).2))
  /\ (forall req, Forall hides_password (events_since w (addMessageRoute req w).2))
  /\ Forall hides_password (events_since w (getMessagesRoute w).2).
Proof.
  split; [|split; [|split; [|split; [|split; [|split]]]]].
  - intros [[[u p]|]];
      unfold createUser, isUserBodyValid, user_body, try_catch, bind, ret, throw,
        new_Date; cbn [UserRequest.body]; [|hidden].
    match goal with |- context [negb ?v] => destruct v end; cbn [negb]; [|hidden].
    rewrite saveUser_run. cbn zeta.
    destruct (UserModel.findOne _ _) as [[[d|]|e] s1]; cbn beta iota;
      [hidden | | hidden].
    destruct (UserModel.create _ _) as [[d|e] s2]; hidden.
  - intros [[[u p]|]];
      unfold userLogin, isUserBodyValid, user_body, try_catch, bind, ret, throw;
      cbn [UserRequest.body]; [|hidden].
    match goal with |- context [negb ?v] => destruct v end; cbn [negb]; [|hidden].
    rewrite loginUser_run.
    destruct (UserModel.findOne _ _) as [[[d|]|e] s1]; cbn beta iota;
      [|hidden|hidden].
    destruct (bool_decide (UserDoc.password d ≠ _)); hidden.
  - intros [u]. unfold getUser, try_catch, bind, ret. cbn [UserByUsernameRequest.username].
    destruct (Js.defined_truthy u); cbn [negb]; [|hidden].
    rewrite getUserByUsername_run.
    destruct (UserModel.findOne _ _) as [[[d|]|e] s1]; cbn beta iota; hidden.
  - intros [u]. unfold deleteUser, try_catch, bind, ret.
    cbn [UserByUsernameRequest.username].
    destruct (Js.defined_truthy u); cbn [negb]; [|hidden].
    rewrite deleteUserByUsername_run.
    destruct (UserModel.findOneAndDelete _ _) as [[[d|]|e] s1]; cbn beta iota; hidden.
  - intros [[[u p]|]];
      unfold resetPassword, user_body, try_catch, bind, ret, throw;
      cbn [UserRequest.body UserCredentials.username UserCredentials.password];
      [|hidden].
    destruct (negb (Js.defined_truthy u) || negb (Js.defined_truthy p)); [hidden|].
    rewrite updateUser_run.
    destruct (UserModel.findOneAndUpdate _ _ _) as [[[d|]|e] s1]; cbn beta iota; hidden.
  - intros [[[[m|]]|]];
      unfold addMessageRoute, isRequestValid, message_body, try_catch, bind, ret, throw;
      cbn [AddMessageRequest.body AddMessageBody.messageToAdd]; [| hidden | hidden].
    rewrite bool_decide_eq_true_2 by eauto. cbn [negb].
    destruct (isMessageValid (Some m)); cbn [negb]; [|hidden].
    rewrite saveMessage_run. cbn zeta.
    destruct (MessageModel.create _ _) as [[d|e] s1]; cbn beta iota; hidden.
  - unfold getMessagesRoute, try_catch, bind. rewrite getMessages_run.
    destruct (MessageModel.find_sorted _) as [[l|e] s1]; cbn beta iota; hidden.
Qed.

End Handlers.

(** ** The services on the in-memory store *)

Section Composition.
Implicit Types (s : MemStore.t) (w : world MemStore.t).

Lemma find_split {A} (p : A -> bool) (l : list A) x :
  List.find p l = Some x ->
  exists l1 l2,
    l = l1 ++ x :: l2
    /\ Forall (fun z => p z = false) l1
    /\ p x = true
    /\ MemStore.remove_first p l = l1 ++ l2
    /\ forall y, MemStore.replace_first p y l = l1 ++ y :: l2.
Proof.
  induction l as [|z l IH]; [done|].
  cbn [List.find MemStore.remove_first MemStore.replace_first].
  destruct (p z) eqn:Hz.
  - intros [= ->]. exists [], l. by repeat split.
  - intros (l1 & l2 & -> & Hl1 & Hx & Hrm & Hrp)%IH.
    exists (z :: l1), l2. repeat split; [by constructor|done|by rewrite Hrm|].
    intros y. by rewrite Hrp.
Qed.

Lemma find_after_miss {A} (p : A -> bool) (l1 l2 : list A) x :
  Forall (fun z => p z = false) l1 -> p x = true ->
  List.find p (l1 ++ x :: l2) = Some x.
Proof.
  induction 1 as [|z l1 Hz _ IH]; intros Hx; simpl.
  - by rewrite Hx.
  - rewrite Hz. by apply IH.
Qed.

Lemma find_none_all {A} (p : A -> bool) (l : list A) :
  List.find p l = None -> Forall (fun z => p z = false) l.
Proof.
  induction l as [|z l IH]; simpl; [constructor|].
  destruct (p z) eqn:Hz; [done|]. intros Hl. constructor; auto.
Qed.

Lemma misses_username (username : option string) (l : list UserDoc.t) :
  Forall (fun z => MemStore.matches username z = false) l ->
  username ∉ UserDoc.username <$> l.
Proof.
  intros Hl (d & -> & Hd)%list_elem_of_fmap.
  rewrite Forall_forall in Hl. specialize (Hl d Hd).
  unfold MemStore.matches in Hl. by apply bool_decide_eq_false in Hl.
Qed.

Lemma replace_first_fmap {A B} (f : A -> B) (p : A -> bool) (y x : A) l :
  List.find p l = Some x -> f y = f x ->
  f <$> MemStore.replace_first p y l = f <$> l.
Proof.
  intros (l1 & l2 & -> & _ & _ & _ & ->)%find_split Hf.
  by rewrite !fmap_app, !fmap_cons, Hf.
Qed.

(** X13: [saveUser] keeps the usernames of the stored users distinct, whether
    its store calls fail or not. *)
Theorem saveUser_keeps_usernames_unique (user : User.t) w :
  unique_usernames (db w) -> unique_usernames (db (saveUser user w).2).
Proof.
  unfold unique_usernames. intros Huniq. rewrite saveUser_run. simpl.
  unfold MemStore.user_findOne, MemStore.call.
  destruct (MemStore.next_fault (db w)); [done|].
  rewrite first_match_advance.
  destruct (MemStore.first_match _ (db w)) eqn:Hfree; [done|].
  unfold MemStore.user_create, MemStore.call.
  destruct (MemStore.next_fault _); simpl; [done|].
  rewrite fmap_app. simpl. apply NoDup_app. split; [done|]. split.
  - intros x Hx ->%list_elem_of_singleton.
    by apply (misses_username _ _ (find_none_all _ _ Hfree)).
  - apply NoDup_singleton.
Qed.

(** X14: [deleteUserByUsername], and [updateUser] with partial fields that
    carry no username, keep the usernames of the stored users distinct. *)
Theorem delete_and_update_keep_usernames_unique w :
  unique_usernames (db w) ->
  (forall username, unique_usernames (db (deleteUserByUsername username w).2))
  /\ (forall username updates,
        UserUpdates.username updates = None ->
        unique_usernames (db (updateUser username updates w).2)).
Proof.
  unfold unique_usernames. intros Huniq. split.
  - intros username. rewrite deleteUserByUsername_run. simpl.
    unfold MemStore.user_findOneAndDelete, MemStore.call.
    destruct (MemStore.next_fault (db w)); [done|].
    rewrite first_match_advance.
    destruct (MemStore.first_match username (db w)); [|done]. simpl.
    eapply sublist_NoDup; [done|]. apply fmap_sublist, remove_first_sublist.
  - intros username updates Hnone. rewrite updateUser_run. simpl.
    unfold MemStore.user_findOneAndUpdate, MemStore.call.
    destruct (MemStore.next_fault (db w)); [done|].
    rewrite first_match_advance.
    destruct (MemStore.first_match username (db w)) as [d|] eqn:Hd; [|done].
    destruct (MemStore.changes_id updates d); [done|]. simpl.
    rewrite (replace_first_fmap _ _ _ d); [done|done|].
    unfold MemStore.set_fields. simpl. by rewrite Hnone.
Qed.

(** X15: [updateUser] does not check the new username: renaming a stored user
    to the username of another stored user succeeds, and leaves two users
    with the same username. *)
Theorem updateUser_rename_collides
    (username : option string) (taken : string) (d : UserDoc.t) w :
  MemStore.calm 1 (db w) ->
  MemStore.first_match username (db w) = Some d ->
  username <> Some taken ->
  MemStore.username_taken (Some taken) (db w) ->
  (updateUser username (rename_to taken) w).1
  = Returned {[ "_id" := Js.VObjectId (UserDoc._id d);
                "username" := Js.VString taken;
                "dateJoined" := Js.VDate (UserDoc.dateJoined d) ]}
  /\ ~ unique_usernames (db (updateUser username (rename_to taken) w).2).
Proof.
  intros Hcalm Hd Hne (e & He & Hname).
  rewrite updateUser_run. simpl. unfold MemStore.user_findOneAndUpdate.
  rewrite (call_calm _ 0) by done. rewrite first_match_advance, Hd. simpl.
  split; [done|]. unfold unique_usernames. simpl.
  unfold MemStore.first_match in Hd.
  apply find_split in Hd as (l1 & l2 & Hl & _ & Hmatch & _ & ->).
  unfold MemStore.matches in Hmatch. apply bool_decide_eq_true in Hmatch.
  rewrite Hl in He. rewrite fmap_app, fmap_cons. simpl.
  intros [Hl1 [Hdisj Hrest]]%NoDup_app. apply NoDup_cons in Hrest as [Hnotin _].
  apply elem_of_app in He as [He | He].
  - apply (Hdisj (Some taken)); [|by left].
    apply list_elem_of_fmap. by exists e.
  - apply elem_of_cons in He as [-> | He]; [congruence|].
    apply Hnotin, list_elem_of_fmap. by exists e.
Qed.


Lemma calm_S n s : MemStore.calm (S n) s -> MemStore.calm n s.
Proof.
  unfold MemStore.calm. intros Hn.
  replace (take n (MemStore.faults s)) with (take n (take (S n) (MemStore.faults s))).
  - by apply Forall_take.
  - rewrite take_take. f_equal. lia.
Qed.

Lemma saveUser_stored (user : User.t) w :
  MemStore.calm 2 (db w) ->
  MemStore.first_match (User.username user) (db w) = None ->
  let d := {| UserDoc._id := MemStore.nextId (db w);
              UserDoc.username := User.username user;
              UserDoc.password := User.password user;
              UserDoc.dateJoined := MemStore.clock (db w) |} in
  saveUser user w
  = (Returned (safe_user d),
     World
       (MemStore.with_nextId (N.succ (MemStore.nextId (db w)))
          (MemStore.with_users (MemStore.users (db w) ++ [d])
             (MemStore.advance (MemStore.advance (db w)))))
       (log w ++ [ServiceEntered (SaveUser user);
                  StoreSettled UserFindOne false;
                  StoreSettled UserCreate false])).
Proof.
  intros Hcalm Hfree d.
  apply calm_next in Hcalm as Hc. destruct Hc as [_ Hcalm'].
  rewrite saveUser_run. simpl. unfold MemStore.user_findOne.
  rewrite (call_calm _ 1) by done. rewrite first_match_advance, Hfree.
  unfold MemStore.user_create. by rewrite (call_calm _ 0) by done.
Qed.

Lemma find_appended (username : option string) (d : UserDoc.t) s :
  MemStore.first_match username s = None ->
  UserDoc.username d = username ->
  List.find (MemStore.matches username) (MemStore.users s ++ [d]) = Some d.
Proof.
  intros Hfree Hname. apply find_after_miss.
  - by apply find_none_all.
  - unfold MemStore.matches. by apply bool_decide_eq_true.
Qed.

(** X16: after a signup that stored a user, looking the username up and
    logging in with the same username and password both return the very
    object the signup returned; logging in with any other password is
    refused. *)
Theorem signup_then_login (user : User.t) w :
  MemStore.calm 3 (db w) ->
  ~ MemStore.username_taken (User.username user) (db w) ->
  let w1 := (saveUser user w).2 in
  let credentials password := UserCredentials.mk (User.username user) password in
  (getUserByUsername (User.username user) w1).1 = (saveUser user w).1
  /\ (loginUser (credentials (User.password user)) w1).1 = (saveUser user w).1
  /\ forall password,
       password <> User.password user ->
       (loginUser (credentials password) w1).1
       = Returned (error_obj "Invalid username or password").
Proof.
  intros Hcalm Hfree%first_match_free w1 credentials. subst w1 credentials.
  pose proof (calm_S _ _ Hcalm) as Hcalm0.
  apply calm_next in Hcalm as [_ Hcalm2]. apply calm_next in Hcalm2 as [_ Hcalm1].
  rewrite (saveUser_stored user w) by done.
  cbn [fst snd].
  pose proof (find_appended _
                {| UserDoc._id := MemStore.nextId (db w);
                   UserDoc.username := User.username user;
                   UserDoc.password := User.password user;
                   UserDoc.dateJoined := MemStore.clock (db w) |}
                (db w) Hfree eq_refl) as Hfind.
  split; [|split].
  - rewrite getUserByUsername_run. cbn [db]. unfold UserModel.findOne. cbn.
    unfold MemStore.user_findOne. rewrite (call_calm _ 0) by exact Hcalm1.
    unfold MemStore.first_match. cbn. by rewrite Hfind.
  - rewrite loginUser_run. cbn [db]. unfold UserModel.findOne. cbn.
    unfold MemStore.user_findOne. rewrite (call_calm _ 0) by exact Hcalm1.
    unfold MemStore.first_match. cbn. rewrite Hfind. cbn.
    rewrite bool_decide_eq_false_2; [done|]. by intros Hn.
  - intros password Hpw.
    rewrite loginUser_run. cbn [db]. unfold UserModel.findOne. cbn.
    unfold MemStore.user_findOne. rewrite (call_calm _ 0) by exact Hcalm1.
    unfold MemStore.first_match. cbn. rewrite Hfind. cbn.
    rewrite bool_decide_eq_true_2; [done|]. by intros Hn.
Qed.


Lemma find_all_miss {A} (p : A -> bool) (l : list A) :
  Forall (fun z => p z = false) l -> List.find p l = None.
Proof.
  induction 1 as [|z l Hz _ IH]; simpl; [done|]. by rewrite Hz.
Qed.

Lemma filter_keeps_all {A} (P : A -> Prop) `{!forall x, Decision (P x)} (l : list A) :
  Forall P l -> filter P l = l.
Proof.
  induction 1 as [|z l Hz _ IH]; [done|]. by rewrite filter_cons_True, IH.
Qed.

Lemma other_usernames (username : option string) (l : list UserDoc.t) :
  username ∉ UserDoc.username <$> l ->
  Forall (fun z => MemStore.matches username z = false) l
  /\ Forall (fun z => UserDoc.username z <> username) l.
Proof.
  intros Hnotin. split; apply Forall_forall; intros z Hz.
  - unfold MemStore.matches. apply bool_decide_eq_false. intros Heq.
    apply Hnotin, list_elem_of_fmap. by exists z.
  - intros Heq. apply Hnotin, list_elem_of_fmap. by exists z.
Qed.

Lemma deleteUserByUsername_found (username : option string) (d : UserDoc.t) w :
  MemStore.calm 1 (db w) ->
  MemStore.first_match username (db w) = Some d ->
  deleteUserByUsername username w
  = (Returned (safe_user d),
     World
       (MemStore.with_users
          (MemStore.remove_first (MemStore.matches username) (MemStore.users (db w)))
          (MemStore.advance (db w)))
       (log w ++ [ServiceEntered (DeleteUserByUsername username);
                  StoreSettled UserFindOneAndDelete false])).
Proof.
  intros Hcalm Hd. rewrite deleteUserByUsername_run. simpl.
  unfold MemStore.user_findOneAndDelete.
  rewrite (call_calm _ 0) by done. by rewrite first_match_advance, Hd.
Qed.

Lemma updateUser_found (username : option string) updates (d : UserDoc.t) w :
  MemStore.calm 1 (db w) ->
  MemStore.first_match username (db w) = Some d ->
  MemStore.changes_id updates d = false ->
  updateUser username updates w
  = (Returned (safe_user (MemStore.set_fields updates d)),
     World
       (MemStore.with_users
          (MemStore.replace_first (MemStore.matches username)
             (MemStore.set_fields updates d) (MemStore.users (db w)))
          (MemStore.advance (db w)))
       (log w ++ [ServiceEntered (UpdateUser username updates);
                  StoreSettled UserFindOneAndUpdate false])).
Proof.
  intros Hcalm Hd Hid. rewrite updateUser_run. simpl.
  unfold MemStore.user_findOneAndUpdate.
  rewrite (call_calm _ 0) by done. by rewrite first_match_advance, Hd, Hid.
Qed.

(** X17: with distinct usernames in the store, deleting a stored username
    returns the safe projection of its user and removes exactly the users of
    that username; looking the username up afterwards gives "User not
    found". *)
Theorem delete_then_lookup (username : option string) (d : UserDoc.t) w :
  MemStore.calm 2 (db w) ->
  unique_usernames (db w) ->
  MemStore.first_match username (db w) = Some d ->
  let w1 := (deleteUserByUsername username w).2 in
  (deleteUserByUsername username w).1
  = Returned {[ "_id" := Js.VObjectId (UserDoc._id d);
                "username" := Js.opt_string username;
                "dateJoined" := Js.VDate (UserDoc.dateJoined d) ]}
  /\ MemStore.users (db w1)
     = filter (fun x => UserDoc.username x <> username) (MemStore.users (db w))
  /\ (getUserByUsername username w1).1 = Returned (error_obj "User not found").
Proof.
  intros Hcalm Huniq Hd w1. subst w1.
  pose proof (calm_S _ _ Hcalm) as Hcalm0.
  apply calm_next in Hcalm as [_ Hcalm1].
  rewrite (deleteUserByUsername_found username d w) by done. cbn [fst snd db].
  unfold MemStore.first_match in Hd.
  apply find_split in Hd as (l1 & l2 & Hl & Hl1 & Hmatch & Hrm & _).
  rewrite Hrm. clear Hrm. unfold unique_usernames in Huniq. rewrite Hl in *.
  unfold MemStore.matches in Hmatch. apply bool_decide_eq_true in Hmatch.
  rewrite fmap_app, fmap_cons, Hmatch in Huniq.
  apply NoDup_app in Huniq as (_ & _ & [Hl2 _]%NoDup_cons).
  pose proof (misses_username _ _ Hl1) as Hn1.
  destruct (other_usernames _ _ Hn1) as [_ Ho1].
  destruct (other_usernames _ _ Hl2) as [Hm2 Ho2].
  split; [by rewrite <- Hmatch|]. split.
  - cbn. rewrite filter_app, filter_cons_False by (by intros Hn; apply Hn).
    by rewrite !filter_keeps_all.
  - rewrite getUserByUsername_run. cbn [db]. unfold UserModel.findOne. cbn.
    unfold MemStore.user_findOne. rewrite (call_calm _ 0) by exact Hcalm1.
    unfold MemStore.first_match. cbn.
    rewrite find_all_miss; [done|]. by apply Forall_app.
Qed.

(** X18: deleting or updating a username that no stored user has returns
    "User not found", whatever the partial fields, and leaves the stored
    users as they were. *)
Theorem unknown_username_not_found (username : option string) w :
  MemStore.calm 1 (db w) ->
  ~ MemStore.username_taken username (db w) ->
  ((deleteUserByUsername username w).1 = Returned (error_obj "User not found")
   /\ MemStore.users (db (deleteUserByUsername username w).2) = MemStore.users (db w))
  /\ forall updates,
       (updateUser username updates w).1 = Returned (error_obj "User not found")
       /\ MemStore.users (db (updateUser username updates w).2)
          = MemStore.users (db w).
Proof.
  intros Hcalm Hfree%first_match_free. split; [|intros updates].
  - rewrite deleteUserByUsername_run. simpl. unfold MemStore.user_findOneAndDelete.
    rewrite (call_calm _ 0) by done. by rewrite first_match_advance, Hfree.
  - rewrite updateUser_run. simpl. unfold MemStore.user_findOneAndUpdate.
    rewrite (call_calm _ 0) by done. by rewrite first_match_advance, Hfree.
Qed.

(** X19: after [updateUser] has set a new password for a stored user, a login
    with the new password returns the same safe projection as the update did,
    and a login with any other password, the old one included, is refused. *)
Theorem reset_then_login (username : option string) (password : string)
    (d : UserDoc.t) w :
  MemStore.calm 2 (db w) ->
  MemStore.first_match username (db w) = Some d ->
  let w1 := (updateUser username (password_only (Some password)) w).2 in
  (updateUser username (password_only (Some password)) w).1 = Returned (safe_user d)
  /\ (loginUser (UserCredentials.mk username (Some password)) w1).1
     = Returned (safe_user d)
  /\ forall other,
       other <> Some password ->
       (loginUser (UserCredentials.mk username other) w1).1
       = Returned (error_obj "Invalid username or password").
Proof.
  intros Hcalm Hd w1. subst w1.
  pose proof (calm_S _ _ Hcalm) as Hcalm0.
  apply calm_next in Hcalm as [_ Hcalm1].
  rewrite (updateUser_found username _ d w) by done. cbn [fst snd db].
  unfold MemStore.first_match in Hd.
  apply find_split in Hd as (l1 & l2 & Hl & Hl1 & Hmatch & _ & Hrp).
  rewrite Hrp. clear Hrp.
  assert (List.find (MemStore.matches username)
            (l1 ++ MemStore.set_fields (password_only (Some password)) d :: l2)
          = Some (MemStore.set_fields (password_only (Some password)) d)) as Hfind
    by (by apply find_after_miss).
  split; [done|]. split; [|intros other Hother].
  - rewrite loginUser_run. cbn [db]. unfold UserModel.findOne. cbn.
    unfold MemStore.user_findOne. rewrite (call_calm _ 0) by exact Hcalm1.
    unfold MemStore.first_match. cbn. rewrite Hfind. cbn.
    rewrite bool_decide_eq_false_2; [done|]. by intros Hn.
  - rewrite loginUser_run. cbn [db]. unfold UserModel.findOne. cbn.
    unfold MemStore.user_findOne. rewrite (call_calm _ 0) by exact Hcalm1.
    unfold MemStore.first_match. cbn. rewrite Hfind. cbn.
    rewrite bool_decide_eq_true_2; [done|]. by intros Hn.
Qed.

Lemma saveMessage_stored (message : Message.t) w :
  MemStore.calm 1 (db w) ->
  let d := {| MessageDoc._id := MemStore.nextId (db w);
              MessageDoc.msg := Message.msg message;
              MessageDoc.msgFrom := Message.msgFrom message;
              MessageDoc.msgDateTime :=
                default (MemStore.clock (db w)) (Message.msgDateTime message) |} in
  saveMessage message w
  = (Returned (message_obj d),
     World
       (MemStore.with_nextId (N.succ (MemStore.nextId (db w)))
          (MemStore.with_messages (MemStore.messages (db w) ++ [d])
             (MemStore.advance (db w))))
       (log w ++ [ServiceEntered (SaveMessage message);
                  StoreSettled MessageCreate false])).
Proof.
  intros Hcalm d. rewrite saveMessage_run. simpl. unfold MemStore.message_create.
  by rewrite (call_calm _ 0) by done.
Qed.

(** X20: after [saveMessage] has stored a message, [getMessages] returns it
    among the messages stored before, all in ascending order of
    [msgDateTime]. *)
Theorem save_then_list (message : Message.t) w :
  MemStore.calm 2 (db w) ->
  exists d l,
    (saveMessage message w).1 = Returned (message_obj d)
    /\ (getMessages (saveMessage message w).2).1 = Returned l
    /\ l ≡ₚ d :: MemStore.messages (db w)
    /\ StronglySorted MemStore.by_msgDateTime l.
Proof.
  intros Hcalm. pose proof (calm_S _ _ Hcalm) as Hcalm0.
  apply calm_next in Hcalm as [_ Hcalm1].
  rewrite (saveMessage_stored message w) by done. cbn [fst snd].
  rewrite getMessages_run. cbn [db]. unfold MessageModel.find_sorted. cbn.
  unfold MemStore.message_find_sorted. rewrite (call_calm _ 0) by exact Hcalm1. cbn.
  eexists _, _. split; [done|]. split; [done|]. split.
  - rewrite merge_sort_Permutation. by rewrite Permutation_app_comm.
  - apply (@StronglySorted_merge_sort _ _ _ by_msgDateTime_trans by_msgDateTime_total).
Qed.

End Composition.

(** ** The further properties at the fixtures *)

Lemma isUserBodyValid_accepts_witness :
  (isUserBodyValid
     (UserRequest.mk (Some (UserCredentials.mk (Some "user1") (Some "password"))))
     empty_world).1
  = Returned true
  /\ is_thrown (isUserBodyValid (UserRequest.mk None) empty_world).1 = true.
Proof.
  split.
  - apply (proj2 (proj1 (isUserBodyValid_accepts _ empty_world))).
    exists "user1", "password". split; [reflexivity|]. split; [reflexivity|discriminate].
  - apply (proj2 (isUserBodyValid_accepts (UserRequest.mk None) empty_world)).
    reflexivity.
Defined.

Lemma isMessageValid_accepts_witness :
  isMessageValid (Some hello) = true.
Proof.
  apply (proj2 (isMessageValid_accepts (Some hello))).
  exists "Hello", "User1", None. split; [reflexivity|]. split; reflexivity.
Defined.

Lemma createUser_answers_by_store_witness :
  events_since joined_world
    (createUser
       (UserRequest.mk (Some (UserCredentials.mk (Some "user1") (Some "other"))))
       joined_world).2
  = [ServiceEntered
       (SaveUser (User.mk None (Some "user1") (Some "other") date_2024_12_04));
     StoreSettled UserFindOne false;
     Responded 400 (Json (error_obj "Username already exists"))].
Proof.
  exact (createUser_answers_by_store
           (UserRequest.mk (Some (UserCredentials.mk (Some "user1") (Some "other"))))
           (UserCredentials.mk (Some "user1") (Some "other"))
           joined_world eq_refl eq_refl).
Defined.

Lemma userLogin_answers_by_store_witness :
  events_since joined_world
    (userLogin
       (UserRequest.mk (Some (UserCredentials.mk (Some "user1") (Some "wrongpassword"))))
       joined_world).2
  = [ServiceEntered
       (LoginUser (UserCredentials.mk (Some "user1") (Some "wrongpassword")));
     StoreSettled UserFindOne false;
     Responded 401 (Json (error_obj "Invalid username or password"))].
Proof.
  exact (userLogin_answers_by_store
           (UserRequest.mk
              (Some (UserCredentials.mk (Some "user1") (Some "wrongpassword"))))
           (UserCredentials.mk (Some "user1") (Some "wrongpassword"))
           joined_world eq_refl eq_refl).
Defined.

Lemma lookup_handlers_answer_by_store_witness :
  events_since joined_world
    (getUser (UserByUsernameRequest.mk (Some "user1")) joined_world).2
  = [ServiceEntered (GetUserByUsername (Some "user1"));
     StoreSettled UserFindOne false;
     Responded 200 (Json (safe_user stored_user1))]
  /\ events_since empty_world
       (deleteUser (UserByUsernameRequest.mk (Some "user1")) empty_world).2
     = [ServiceEntered (DeleteUserByUsername (Some "user1"));
        StoreSettled UserFindOneAndDelete false;
        Responded 404 (Json (error_obj "User not found"))]
  /\ events_since failing_world
       (resetPassword
          (UserRequest.mk (Some (UserCredentials.mk (Some "user1") (Some "newPassword"))))
          failing_world).2
     = [ServiceEntered (UpdateUser (Some "user1") (password_only (Some "newPassword")));
        StoreSettled UserFindOneAndUpdate true;
        Responded 500 (Json (error_obj "Failed to update user"))].
Proof.
  split; [|split].
  - exact (proj1 (lookup_handlers_answer_by_store (Some "user1") joined_world eq_refl)).
  - exact (proj1 (proj2
             (lookup_handlers_answer_by_store (Some "user1") empty_world eq_refl))).
  - exact (proj2 (proj2
             (lookup_handlers_answer_by_store (Some "user1") failing_world eq_refl))
             (Some "newPassword") eq_refl).
Defined.

Lemma missing_username_refused_witness :
  getUser (UserByUsernameRequest.mk (Some "")) joined_world
  = (Returned tt,
     World (db joined_world)
       (log joined_world ++ [Responded 400 (Json (error_obj "Username is required"))]))
  /\ resetPassword
       (UserRequest.mk (Some (UserCredentials.mk (Some "") (Some "newPassword"))))
       joined_world
     = (Returned tt,
        World (db joined_world)
          (log joined_world ++ [Responded 400 (Text "Invalid user body")])).
Proof.
  pose proof (missing_username_refused (Some "") joined_world (or_intror eq_refl))
    as (Hget & _ & Hreset).
  split; [exact Hget | exact (Hreset (Some "newPassword"))].
Defined.

Lemma addMessageRoute_refuses_witness :
  addMessageRoute (AddMessageRequest.mk (Some (AddMessageBody.mk None))) empty_world
  = (Returned tt,
     World (db empty_world) (log empty_world ++ [Responded 400 (Text "Invalid request")]))
  /\ addMessageRoute
       (AddMessageRequest.mk
          (Some (AddMessageBody.mk (Some (Message.mk (Some "  ") (Some "User1") None)))))
       empty_world
     = (Returned tt,
        World (db empty_world)
          (log empty_world ++ [Responded 400 (Text "Invalid message")])).
Proof.
  split.
  - exact (proj1 (addMessageRoute_refuses
                    (AddMessageRequest.mk (Some (AddMessageBody.mk None))) empty_world)
             eq_refl).
  - exact (proj2 (addMessageRoute_refuses
                    (AddMessageRequest.mk
                       (Some (AddMessageBody.mk
                                (Some (Message.mk (Some "  ") (Some "User1") None)))))
                    empty_world)
             (Message.mk (Some "  ") (Some "User1") None) eq_refl eq_refl).
Defined.

Lemma addMessageRoute_store_error_witness :
  addMessageRoute hello_request failing_world
  = (Returned tt,
     World (MemStore.advance (db failing_world))
       (log failing_world
        ++ [ServiceEntered (SaveMessage hello);
            StoreSettled MessageCreate true;
            Responded 500 (Json (error_obj "Failed to save message"))])).
Proof.
  exact (addMessageRoute_store_error hello_request hello (Error "Database error")
           (MemStore.advance (db failing_world)) failing_world
           eq_refl eq_refl eq_refl).
Defined.

Lemma saveUser_keeps_usernames_unique_witness :
  unique_usernames (db (saveUser user1 joined_world).2)
  /\ unique_usernames (db (saveUser user1 empty_world).2).
Proof.
  split.
  - apply (saveUser_keeps_usernames_unique user1 joined_world). apply NoDup_singleton.
  - apply (saveUser_keeps_usernames_unique user1 empty_world). apply NoDup_nil_2.
Defined.

Lemma delete_and_update_keep_usernames_unique_witness :
  unique_usernames (db (deleteUserByUsername (Some "user1") two_users_world).2)
  /\ unique_usernames
       (db (updateUser (Some "user1") (password_only (Some "newPassword"))
              two_users_world).2).
Proof.
  assert (unique_usernames (db two_users_world)) as Huniq.
  { unfold unique_usernames. simpl. apply NoDup_cons. split.
    - intros Hin. apply list_elem_of_singleton in Hin. discriminate.
    - apply NoDup_singleton. }
  split.
  - exact (proj1 (delete_and_update_keep_usernames_unique two_users_world Huniq)
             (Some "user1")).
  - exact (proj2 (delete_and_update_keep_usernames_unique two_users_world Huniq)
             (Some "user1") (password_only (Some "newPassword")) eq_refl).
Defined.

Lemma updateUser_rename_collides_witness :
  (updateUser (Some "user1") (rename_to "user2") two_users_world).1
  = Returned {[ "_id" := Js.VObjectId 0;
                "username" := Js.VString "user2";
                "dateJoined" := Js.VDate date_2024_12_03 ]}
  /\ ~ unique_usernames
        (db (updateUser (Some "user1") (rename_to "user2") two_users_world).2).
Proof.
  apply (updateUser_rename_collides (Some "user1") "user2" stored_user1 two_users_world).
  - apply calm_empty_schedule. reflexivity.
  - reflexivity.
  - discriminate.
  - exists stored_user2. split; [right; left | reflexivity].
Defined.

Lemma signup_then_login_witness :
  let w1 := (saveUser user1 empty_world).2 in
  (getUserByUsername (Some "user1") w1).1 = (saveUser user1 empty_world).1
  /\ (loginUser (UserCredentials.mk (Some "user1") (Some "password")) w1).1
     = (saveUser user1 empty_world).1
  /\ (loginUser (UserCredentials.mk (Some "user1") (Some "wrongpassword")) w1).1
     = Returned (error_obj "Invalid username or password").
Proof.
  pose proof (signup_then_login user1 empty_world
                (calm_empty_schedule 3 (db empty_world) eq_refl)
                (free_in_empty _ (db empty_world) eq_refl))
    as (Hget & Hlogin & Hwrong).
  split; [exact Hget|]. split; [exact Hlogin|].
  apply (Hwrong (Some "wrongpassword")). discriminate.
Defined.

Lemma delete_then_lookup_witness :
  let w1 := (deleteUserByUsername (Some "user1") two_users_world).2 in
  (deleteUserByUsername (Some "user1") two_users_world).1
  = Returned (safe_user stored_user1)
  /\ MemStore.users (db w1) = [stored_user2]
  /\ (getUserByUsername (Some "user1") w1).1 = Returned (error_obj "User not found").
Proof.
  apply (delete_then_lookup (Some "user1") stored_user1 two_users_world).
  - apply calm_empty_schedule. reflexivity.
  - unfold unique_usernames. simpl. apply NoDup_cons. split.
    + intros Hin. apply list_elem_of_singleton in Hin. discriminate.
    + apply NoDup_singleton.
  - reflexivity.
Defined.

Lemma unknown_username_not_found_witness :
  (deleteUserByUsername (Some "nonexistent") empty_world).1
  = Returned (error_obj "User not found")
  /\ (updateUser (Some "nonexistent") (password_only (Some "newPassword"))
        empty_world).1
     = Returned (error_obj "User not found").
Proof.
  pose proof (unknown_username_not_found (Some "nonexistent") empty_world
                (calm_empty_schedule 1 (db empty_world) eq_refl)
                (free_in_empty _ (db empty_world) eq_refl))
    as [[Hdel _] Hupd].
  split; [exact Hdel|]. exact (proj1 (Hupd (password_only (Some "newPassword")))).
Defined.

Lemma reset_then_login_witness :
  let w1 := (updateUser (Some "user1") (password_only (Some "newPassword"))
               joined_world).2 in
  (loginUser (UserCredentials.mk (Some "user1") (Some "newPassword")) w1).1
  = Returned (safe_user stored_user1)
  /\ (loginUser (UserCredentials.mk (Some "user1") (Some "password")) w1).1
     = Returned (error_obj "Invalid username or password").
Proof.
  pose proof (reset_then_login (Some "user1") "newPassword" stored_user1 joined_world
                (calm_empty_schedule 2 (db joined_world) eq_refl) eq_refl)
    as (_ & Hnew & Hold).
  split; [exact Hnew|]. apply (Hold (Some "password")). discriminate.
Defined.

Lemma save_then_list_witness :
  exists d l,
    (saveMessage hello reversed_world).1 = Returned (message_obj d)
    /\ (getMessages (saveMessage hello reversed_world).2).1 = Returned l
    /\ l ≡ₚ d :: MemStore.messages (db reversed_world)
    /\ StronglySorted MemStore.by_msgDateTime l.
Proof.
  apply (save_then_list hello reversed_world). apply calm_empty_schedule. reflexivity.
Defined.

(** ** White space beyond ASCII *)

(** [trim] strips the em space, the ideographic space and the BOM like any
    other white space, at both ends only. *)
Example trim_unicode_white_space :
  Js.trim em_space = ""
  /\ Js.trim (byte_order_mark ++ ideographic_space)%string = ""
  /\ Js.trim (em_space ++ "a" ++ ideographic_space ++ "b" ++ byte_order_mark)%string
     = ("a" ++ ideographic_space ++ "b")%string.
Proof. repeat split; reflexivity. Qed.

(** A signup whose username is one em space is refused like a username of
    ASCII spaces; a message whose [msg] is a BOM and an ideographic space is
    not valid. *)
Example unicode_blank_refused :
  events_since empty_world
    (createUser
       (UserRequest.mk (Some (UserCredentials.mk (Some em_space) (Some "password"))))
       empty_world).2
  = [Responded 400 (Text "Invalid user body")]
  /\ isMessageValid
       (Some (Message.mk (Some (byte_order_mark ++ ideographic_space)%string)
                (Some "User1") None))
     = false.
Proof. split; reflexivity. Qed.
